(** * Pizza analytics backend: the transformation and aggregation pipeline

    A shallow embedding of [app.py]: [process_pizza_data] (CSV bytes to the
    enriched frame), [calculate_metrics] (the metrics record), and the
    handlers [upload_file], [get_metrics], [get_raw_data] and
    [get_uploaded_files] over the in-memory [processed_data_store].

    Modelling conventions.
    - A pandas frame is its list of column labels and its list of rows; a
      row is a record with one optional cell per column of the data model
      ([None] is NaN / NaT).  The cells are typed as the data model has
      them (dates and names are text, ids, quantity and prices are
      numbers); a column outside the data model is not represented.
    - The reader gives, with the frame, the dtype it has inferred for each
      of the five columns the transformation computes with ([Csv]).  The
      operators [+] and [*] raise [TypeError] on the dtypes on which
      Python does; where the outcome depends on what the typed cells do
      not hold, the run is [Unmodelled], and nothing is said of it.
    - Numbers are exact rationals ([Qc]): the binary rounding of float64
      arithmetic is not part of the model, only the explicit [round(_, 2)]
      and [int(_)] of the source are.
    - Python exceptions are values of [result]; [x ← e; k] runs [k] when
      [e] returns and passes on what [e] raises.  The text of a
      [TypeError] names the operands; the message is the library's.
    - A frame is an object: [Objects] has the heap of frames and
      [calculate_metrics] on a reference, with the copy it takes and the
      writes it makes.
    - What the source delegates to libraries and the code does not fix is
      a field of the class [Pandas]: the CSV reader, the [to_datetime]
      parser for the format of the source, the descending sort of
      [sort_values], [str] on exceptions, and the rendering of the
      response by [JSONResponse].  Properties hold for every instance;
      [Fixture.pandas] is one, used to run sample files.

    The file has the definitions first (the source, then its row-by-row
    description, then the sample files), and the properties after them. *)

From Stdlib Require Import ZArith QArith Qcanon Qround Lqa String Ascii List.
From Stdlib.Strings Require Import Byte.
From stdpp Require Import base option list sorting gmap strings pretty numbers.

Open Scope Z_scope.

(** ** Numbers *)

(** [numpy.rint]: round to the nearest integer, halves to the even one. *)
Definition rint (x : Qc) : Z :=
  let f := Qfloor x in
  match (x - Qc_of_Z f ?= 1 / 2)%Qc with
  | Lt => f
  | Gt => f + 1
  | Eq => if Z.even f then f else f + 1
  end.

(** [round(x, 2)] on a numpy scalar: scale by 100, [rint], scale back. *)
Definition round2 (x : Qc) : Qc :=
  (Qc_of_Z (rint (x * Qc_of_Z 100)) / Qc_of_Z 100)%Qc.

(** [int(x)]: truncation toward zero. *)
Definition int (x : Qc) : Z := Z.quot (Qnum x) (Z.pos (Qden x)).

(** [Series.sum()]: missing cells are skipped, the empty sum is 0. *)
Definition series_sum (s : list (option Qc)) : Qc :=
  foldr (λ c acc, match c with Some v => (v + acc)%Qc | None => acc end) 0%Qc s.

(** [Series.nunique()]: the number of distinct cells that are not missing. *)
Definition nunique `{EqDecision A} (s : list (option A)) : Z :=
  Z.of_nat (length (remove_dups (omap id s))).

(** ** Timestamps *)

Module Timestamp.

Record t := mk {
  year : Z; month : Z; day : Z; hour : Z; minute : Z; second : Z }.

#[global] Instance eq_dec : EqDecision t.
Proof. solve_decision. Defined.

(** Days since 1970-01-01 in the proleptic Gregorian calendar. *)
Definition days_from_civil (y m d : Z) : Z :=
  let y' := if m <=? 2 then y - 1 else y in
  let era := y' / 400 in
  let yoe := y' - era * 400 in
  let mp := (m + 9) mod 12 in
  let doy := (153 * mp + 2) / 5 + d - 1 in
  let doe := yoe * 365 + yoe / 4 - yoe / 100 + doy in
  era * 146097 + doe - 719468.

(** [Timestamp.weekday()]: Monday is 0. *)
Definition weekday (ts : t) : Z :=
  (days_from_civil (year ts) (month ts) (day ts) + 3) mod 7.

Definition day_name (ts : t) : string :=
  match weekday ts with
  | 0 => "Monday" | 1 => "Tuesday" | 2 => "Wednesday" | 3 => "Thursday"
  | 4 => "Friday" | 5 => "Saturday" | _ => "Sunday"
  end.

(** Decimal digits of [n], left-padded with zeros to [width]. *)
Definition zero_pad (width : nat) (n : Z) : string :=
  let s := pretty n in
  String.concat "" (replicate (width - String.length s) "0") +:+ s.

(** [str] of a calendar date, its ISO format: the year has four digits. *)
Definition isoformat_date (y m d : Z) : string :=
  zero_pad 4 y +:+ "-" +:+ zero_pad 2 m +:+ "-" +:+ zero_pad 2 d.

(** [strftime('%Y-%m-%d %H:%M:%S')]: [%Y] writes the year without padding
    (['999-12-31 01:00:00'] in year 999), the other fields have two
    digits. *)
Definition strftime (ts : t) : string :=
  pretty (year ts) +:+ "-" +:+ zero_pad 2 (month ts) +:+ "-" +:+
  zero_pad 2 (day ts) +:+ " " +:+
  zero_pad 2 (hour ts) +:+ ":" +:+ zero_pad 2 (minute ts) +:+ ":" +:+
  zero_pad 2 (second ts).

End Timestamp.

(** A calendar date, the value of [.dt.date]. *)
Record date := Date { date_year : Z; date_month : Z; date_day : Z }.

#[global] Instance date_eq_dec : EqDecision date.
Proof. solve_decision. Defined.

Definition date_of (ts : Timestamp.t) : date :=
  Date (Timestamp.year ts) (Timestamp.month ts) (Timestamp.day ts).

Definition date_str (d : date) : string :=
  Timestamp.isoformat_date (date_year d) (date_month d) (date_day d).

(** Dates compare as (year, month, day) triples. *)
Definition date_leb (a b : date) : bool :=
  (date_year a <? date_year b) ||
  ((date_year a =? date_year b) &&
   ((date_month a <? date_month b) ||
    ((date_month a =? date_month b) && (date_day a <=? date_day b)))).

(** ** Frames *)

(** The columns of the data model: the nine of the CSV file and the five
    that [process_pizza_data] derives. *)
Inductive column :=
| OrderId | OrderDate | OrderTime
| PizzaName | PizzaCategory | PizzaSize
| Quantity | UnitPrice | TotalPrice
| OrderDatetime | Month | DayOfWeek | Hour | Revenue.

#[global] Instance column_eq_dec : EqDecision column.
Proof. solve_decision. Defined.

Definition column_name (c : column) : string :=
  match c with
  | OrderId => "order_id" | OrderDate => "order_date"
  | OrderTime => "order_time" | PizzaName => "pizza_name"
  | PizzaCategory => "pizza_category" | PizzaSize => "pizza_size"
  | Quantity => "quantity" | UnitPrice => "unit_price"
  | TotalPrice => "total_price" | OrderDatetime => "order_datetime"
  | Month => "month" | DayOfWeek => "day_of_week" | Hour => "hour"
  | Revenue => "revenue"
  end.

Record row := Row {
  order_id : option Z;
  order_date : option string;
  order_time : option string;
  pizza_name : option string;
  pizza_category : option string;
  pizza_size : option string;
  quantity : option Qc;
  unit_price : option Qc;
  total_price : option Qc;
  order_datetime : option Timestamp.t;
  month : option Z;
  day_of_week : option string;
  hour : option Z;
  revenue : option Qc }.

#[global] Instance row_eq_dec : EqDecision row.
Proof. solve_decision. Defined.

Record DataFrame := Frame { columns : list column; rows : list row }.

(** [len(df)]. *)
Definition len (df : DataFrame) : Z := Z.of_nat (length (rows df)).

(** Writing one cell of a row. *)
Definition set_quantity (v : option Qc) (r : row) : row :=
  Row (order_id r) (order_date r) (order_time r) (pizza_name r)
      (pizza_category r) (pizza_size r) v (unit_price r) (total_price r)
      (order_datetime r) (month r) (day_of_week r) (hour r) (revenue r).
Definition set_total_price (v : option Qc) (r : row) : row :=
  Row (order_id r) (order_date r) (order_time r) (pizza_name r)
      (pizza_category r) (pizza_size r) (quantity r) (unit_price r) v
      (order_datetime r) (month r) (day_of_week r) (hour r) (revenue r).
Definition set_order_datetime (v : option Timestamp.t) (r : row) : row :=
  Row (order_id r) (order_date r) (order_time r) (pizza_name r)
      (pizza_category r) (pizza_size r) (quantity r) (unit_price r)
      (total_price r) v (month r) (day_of_week r) (hour r) (revenue r).
Definition set_month (v : option Z) (r : row) : row :=
  Row (order_id r) (order_date r) (order_time r) (pizza_name r)
      (pizza_category r) (pizza_size r) (quantity r) (unit_price r)
      (total_price r) (order_datetime r) v (day_of_week r) (hour r)
      (revenue r).
Definition set_day_of_week (v : option string) (r : row) : row :=
  Row (order_id r) (order_date r) (order_time r) (pizza_name r)
      (pizza_category r) (pizza_size r) (quantity r) (unit_price r)
      (total_price r) (order_datetime r) (month r) v (hour r) (revenue r).
Definition set_hour (v : option Z) (r : row) : row :=
  Row (order_id r) (order_date r) (order_time r) (pizza_name r)
      (pizza_category r) (pizza_size r) (quantity r) (unit_price r)
      (total_price r) (order_datetime r) (month r) (day_of_week r) v
      (revenue r).
Definition set_revenue (v : option Qc) (r : row) : row :=
  Row (order_id r) (order_date r) (order_time r) (pizza_name r)
      (pizza_category r) (pizza_size r) (quantity r) (unit_price r)
      (total_price r) (order_datetime r) (month r) (day_of_week r) (hour r)
      v.

(** A typed view of one column: its label and how a cell is read. *)
Record Series (A : Type) := MkSeries { label : column; cell : row → option A }.
Arguments label {A} _.
Arguments cell {A} _ _.

Definition order_id_col := MkSeries Z OrderId order_id.
Definition order_date_col := MkSeries string OrderDate order_date.
Definition order_time_col := MkSeries string OrderTime order_time.
Definition pizza_name_col := MkSeries string PizzaName pizza_name.
Definition pizza_category_col := MkSeries string PizzaCategory pizza_category.
Definition pizza_size_col := MkSeries string PizzaSize pizza_size.
Definition quantity_col := MkSeries Qc Quantity quantity.
Definition unit_price_col := MkSeries Qc UnitPrice unit_price.
Definition total_price_col := MkSeries Qc TotalPrice total_price.
Definition order_datetime_col :=
  MkSeries Timestamp.t OrderDatetime order_datetime.
Definition month_col := MkSeries Z Month month.
Definition day_of_week_col := MkSeries string DayOfWeek day_of_week.
Definition hour_col := MkSeries Z Hour hour.
Definition revenue_col := MkSeries Qc Revenue revenue.

(** ** Exceptions *)

Inductive Exception :=
| UnicodeDecodeError
| ParserError (msg : string)
| KeyError (key : string)
| TypeError (msg : string)
| ValueError (msg : string)
| AttributeError (msg : string)
| HTTPException (status_code : Z) (detail : string).

#[global] Instance Exception_eq_dec : EqDecision Exception.
Proof. solve_decision. Defined.

(** The outcome of a call: a value, an exception, or [Unmodelled] where
    the run leaves the part of pandas that the typed frames represent (see
    [Csv] below): there the model stops and says nothing of what the code
    does.  [Unmodelled] is no exception: an [except] clause does not catch
    it. *)
Inductive result (A : Type) :=
| Ok (a : A)
| Raise (e : Exception)
| Unmodelled.
Arguments Ok {A} a.
Arguments Raise {A} e.
Arguments Unmodelled {A}.

#[global] Instance result_ret : MRet result := λ A a, Ok a.
#[global] Instance result_bind : MBind result := λ A B f m,
  match m with Ok a => f a | Raise e => Raise e | Unmodelled => Unmodelled end.

(** [df[c]]: the cells of column [c], or [KeyError]. *)
Definition getitem {A} (df : DataFrame) (c : Series A)
  : result (list (option A)) :=
  if bool_decide (label c ∈ columns df)
  then Ok (cell c <$> rows df)
  else Raise (KeyError (column_name (label c))).

(** [df[c] = values]: the column is replaced, or appended when new;
    [set] writes the cell of that column. *)
Definition add_label (cols : list column) (l : column) : list column :=
  if bool_decide (l ∈ cols) then cols else cols ++ [l].

Definition setitem {A} (df : DataFrame) (c : Series A)
  (set : option A → row → row) (values : list (option A)) : DataFrame :=
  Frame (add_label (columns df) (label c)) (zip_with set values (rows df)).

(** [df.fillna({c: value})]: a missing cell of column [c] takes the value
    at its own position; a label the frame does not have is skipped. *)
Definition fill_cell {A} (c : Series A) (set : option A → row → row)
  (v : option A) (r : row) : row :=
  if cell c r is Some _ then r else set v r.

Definition fillna {A} (df : DataFrame) (c : Series A)
  (set : option A → row → row) (value : list (option A)) : DataFrame :=
  if bool_decide (label c ∈ columns df)
  then Frame (columns df) (zip_with (fill_cell c set) value (rows df))
  else df.

(** A scalar fill value, broadcast over the rows. *)
Definition broadcast {A} (df : DataFrame) (v : A) : list (option A) :=
  replicate (length (rows df)) (Some v).

(** [df.dropna(subset=[c])]. *)
Definition dropna {A} (df : DataFrame) (c : Series A) : DataFrame :=
  Frame (columns df) (filter (λ r, is_Some (cell c r)) (rows df)).

(** ** Dtypes

    [pd.read_csv] gives every column a dtype by what its fields hold:
    numbers ([int64], [float64], [bool]) when every field is one, text
    ([object]) otherwise.  The operators [+] and [*] of the transformation
    depend on it, so the model keeps, with the frame, the dtype inferred
    for each of the five columns that [process_pizza_data] computes
    with. *)
Inductive dtype := object | number.

#[global] Instance dtype_eq_dec : EqDecision dtype.
Proof. solve_decision. Defined.

Record dtypes := MkDtypes {
  of_order_date : dtype;
  of_order_time : dtype;
  of_quantity : dtype;
  of_unit_price : dtype;
  of_total_price : dtype }.

(** The dtypes of the data model: dates and times are text, the quantity
    and the two prices are numbers. *)
Definition data_model : dtypes :=
  MkDtypes object object number number number.

(** A frame as [pd.read_csv] returns it.  The cells of [frame] are typed by
    the data model; in a column of another dtype a cell keeps its place
    and what the typed cell can hold of the field:
    - in a text column held as numbers, [Some s] is the number written [s];
    - in a number column held as text, [Some _] is a text cell, the text of
      which is not represented.
    For a column without rows the dtype makes no difference and is the
    data model's. *)
Record Csv := MkCsv { frame : DataFrame; inferred : dtypes }.

(** A frame read with the dtypes of the data model. *)
Definition Typed (df : DataFrame) : Csv := MkCsv df data_model.

(** [a + s], a column and a text: a missing cell stays missing.  On a
    column of numbers there is no addition with a text, and the operator
    raises. *)
Definition str_add_scalar (dt : dtype) (a : list (option string))
  (s : string) : result (list (option string)) :=
  match dt with
  | object => Ok (fmap (M := list) (fmap (λ x, x +:+ s)) a)
  | number => Raise (TypeError "number + str")
  end.

(** [a + b], [a] a column of text: a missing operand gives a missing
    cell.  When [b] is a column of numbers, a position where both cells
    are present raises (a text plus a number); without such a position
    what happens depends on the version of pandas, and is not modelled. *)
Definition str_add (a : list (option string)) (dt : dtype)
  (b : list (option string)) : result (list (option string)) :=
  match dt with
  | object => Ok (zip_with (λ x y, x ← x; y ← y; Some (x +:+ y)) a b)
  | number =>
      if bool_decide (Exists (λ xy, is_Some xy.1 ∧ is_Some xy.2) (zip a b))
      then Raise (TypeError "str + number")
      else Unmodelled
  end.

(** Whether [*] meets two text cells on row [r] of the frame as read: the
    quantity of the row is a text, and so is its total price, or its unit
    price where that fills a missing total price. *)
Definition text_times_text (dt : dtypes) (r : row) : bool :=
  bool_decide (of_quantity dt = object ∧ is_Some (quantity r))
  && (if total_price r is Some _
      then bool_decide (of_total_price dt = object)
      else bool_decide (of_unit_price dt = object ∧ is_Some (unit_price r))).

(** [a * b] on the quantity and the total price of the kept rows.  Numbers
    multiply cell by cell, a missing operand giving a missing cell.  Where
    pandas holds one of the three number columns as text, a row on which
    two text cells meet (a [true] in [texts]) raises; without such a row a
    text meets a number, or nothing, and the outcome (an error, or a text
    repeated) depends on dtypes that the model does not represent. *)
Definition series_mul (dt : dtypes) (texts : list bool)
  (a b : list (option Qc)) : result (list (option Qc)) :=
  if bool_decide (of_quantity dt = number ∧ of_unit_price dt = number
                  ∧ of_total_price dt = number)
  then Ok (zip_with (λ x y, x ← x; y ← y; Some (x * y)%Qc) a b)
  else if bool_decide (true ∈ texts) then Raise (TypeError "str * str")
  else Unmodelled.

(** The [.dt] accessors. *)
Definition dt_month (s : list (option Timestamp.t)) : list (option Z) :=
  fmap (M := list) (fmap Timestamp.month) s.
Definition dt_day_name (s : list (option Timestamp.t))
  : list (option string) :=
  fmap (M := list) (fmap Timestamp.day_name) s.
Definition dt_hour (s : list (option Timestamp.t)) : list (option Z) :=
  fmap (M := list) (fmap Timestamp.hour) s.
Definition dt_date (s : list (option Timestamp.t)) : list (option date) :=
  fmap (M := list) (fmap date_of) s.
Definition dt_strftime (s : list (option Timestamp.t))
  : list (option string) :=
  fmap (M := list) (fmap Timestamp.strftime) s.

(** ** Decoding *)

(** A continuation byte, 0x80 to 0xBF. *)
Definition continuation (b : N) : bool := ((128 <=? b) && (b <=? 191))%N.

(** Well-formed UTF-8: what [bytes.decode('utf-8')] accepts. *)
Fixpoint utf8_valid (bs : list N) : bool :=
  match bs with
  | [] => true
  | b0 :: bs1 =>
    if (b0 <=? 127)%N then utf8_valid bs1
    else if ((194 <=? b0) && (b0 <=? 223))%N then
      match bs1 with
      | b1 :: bs2 => continuation b1 && utf8_valid bs2
      | _ => false
      end
    else if ((224 <=? b0) && (b0 <=? 239))%N then
      match bs1 with
      | b1 :: b2 :: bs3 =>
        (if (b0 =? 224)%N then ((160 <=? b1) && (b1 <=? 191))%N
         else if (b0 =? 237)%N then ((128 <=? b1) && (b1 <=? 159))%N
         else continuation b1)
        && continuation b2 && utf8_valid bs3
      | _ => false
      end
    else if ((240 <=? b0) && (b0 <=? 244))%N then
      match bs1 with
      | b1 :: b2 :: b3 :: bs4 =>
        (if (b0 =? 240)%N then ((144 <=? b1) && (b1 <=? 191))%N
         else if (b0 =? 244)%N then ((128 <=? b1) && (b1 <=? 143))%N
         else continuation b1)
        && continuation b2 && continuation b3 && utf8_valid bs4
      | _ => false
      end
    else false
  end.

(** [file_content.decode('utf-8')]; text is kept as its UTF-8 bytes. *)
Definition decode (file_content : list byte) : result string :=
  if utf8_valid (Byte.to_N <$> file_content)
  then Ok (string_of_list_byte file_content)
  else Raise UnicodeDecodeError.

(** ** The metrics record *)

Record popular_pizza := PopularPizza {
  pp_pizza_name : string; pp_quantity : Qc; pp_revenue : Qc }.

(** A JSON-safe cell, and a cell as [iterrows] yields it. *)
Inductive value :=
| VTimestamp (ts : Timestamp.t)
| VNaN
| VNone
| VNum (q : Qc)
| VStr (s : string).

Record Metrics := MkMetrics {
  total_revenue : Qc;
  total_orders : Z;
  avg_order_value : Qc;
  total_items_sold : Z;
  popular_pizzas : list popular_pizza;
  category_sales : list (string * Qc);
  size_sales : list (string * Qc);
  daily_sales : list (string * Qc);
  hourly_sales : list (Z * Qc);
  data_preview : list (list (string * value)) }.

(** ** Grouping, slicing, serialising *)

(** [groupby(keys)]: the distinct keys that are not missing, in ascending
    order ([sort=True] and [dropna=True] are the defaults). *)
Definition group_keys `{EqDecision K} (leb : K → K → bool)
  (keys : list (option K)) : list K :=
  merge_sort (λ a b, leb a b) (remove_dups (omap id keys)).

(** The sum of [values] over the positions whose key is [k]. *)
Definition group_sum `{EqDecision K} (keys : list (option K))
  (values : list (option Qc)) (k : K) : Qc :=
  series_sum (snd <$> filter (λ kv, kv.1 = Some k) (zip keys values)).

(** [groupby(keys)[values].sum().reset_index()]. *)
Definition groupby_sum `{EqDecision K} (leb : K → K → bool)
  (keys : list (option K)) (values : list (option Qc)) : list (K * Qc) :=
  (λ k, (k, group_sum keys values k)) <$> group_keys leb keys.

(** [.head(n)], that is [.iloc[:n]]: the first [n] items, and for a
    negative [n] all items but the last [-n]. *)
Definition head_n {A} (n : Z) (l : list A) : list A :=
  if 0 <=? n then take (Z.to_nat n) l
  else take (Z.to_nat (Z.of_nat (length l) + n)) l.

Definition num_value (c : option Qc) : value :=
  match c with Some q => VNum q | None => VNaN end.
Definition int_value (c : option Z) : value :=
  match c with Some z => VNum (Qc_of_Z z) | None => VNaN end.
Definition str_value (c : option string) : value :=
  match c with Some s => VStr s | None => VNaN end.

(** The cell of column [c] as [iterrows] hands it out. *)
Definition cell_value (c : column) (r : row) : value :=
  match c with
  | OrderId => int_value (order_id r)
  | OrderDate => str_value (order_date r)
  | OrderTime => str_value (order_time r)
  | PizzaName => str_value (pizza_name r)
  | PizzaCategory => str_value (pizza_category r)
  | PizzaSize => str_value (pizza_size r)
  | Quantity => num_value (quantity r)
  | UnitPrice => num_value (unit_price r)
  | TotalPrice => num_value (total_price r)
  | OrderDatetime =>
      match order_datetime r with Some ts => VTimestamp ts | None => VNaN end
  | Month => int_value (month r)
  | DayOfWeek => str_value (day_of_week r)
  | Hour => int_value (hour r)
  | Revenue => num_value (revenue r)
  end.

(** [row.items()]. *)
Definition items (df : DataFrame) (r : row) : list (string * value) :=
  (λ c, (column_name c, cell_value c r)) <$> columns df.

Definition convert_to_serializable (obj : value) : value :=
  match obj with
  | VTimestamp ts => VStr (Timestamp.strftime ts)
  | VNaN | VNone => VNone
  | VNum q => VNum q
  | VStr s => VStr s
  end.

(** The body of the two serialising loops, for one row. *)
Definition serializable_row (df : DataFrame) (r : row)
  : list (string * value) :=
  (λ cv, (cv.1, convert_to_serializable cv.2)) <$> items df r.

(** [s.endswith(suffix)]. *)
Definition endswith (s suffix : string) : bool :=
  bool_decide (list_ascii_of_string suffix `suffix_of` list_ascii_of_string s).

(** An entry of [processed_data_store], and the content of the response
    to an upload. *)
Record Entry := MkEntry {
  filename : string;
  dataframe : DataFrame;
  record_count : Z;
  metrics : Metrics }.

Record UploadResponse := MkUploadResponse {
  message : string;
  file_id : string;
  response_record_count : Z;
  response_metrics : Metrics }.

(** ** The library boundary *)

Class Pandas := {
  (** [pd.read_csv(io.StringIO(text))]: the frame with its dtypes, or the
      error of the parser.  Columns outside the five of [dtypes] are typed
      by the data model; a file in which pandas holds one of those with
      another dtype, or that has a number that is not finite, has no frame
      in the model: the reader is [Unmodelled] on it. *)
  read_csv : string → result Csv;
  (** [pd.to_datetime(_, format='%m/%d/%Y %H:%M:%S', errors='coerce')] on
      one text: [None] is NaT. *)
  strptime : string → option Timestamp.t;
  (** [sort_values('quantity', ascending=False)] on the grouped table. *)
  sort_values : list popular_pizza → list popular_pizza;
  (** [str(e)]. *)
  str : Exception → string;
  (** [JSONResponse(content)]: the body is rendered when the response is
      built, and a float that is not finite makes that raise [ValueError].
      The numbers of the model are exact, so whether a content renders is
      left to the library. *)
  JSONResponse : UploadResponse → result unit }.

Section Pipeline.

Context `{Pandas}.

Definition to_datetime (s : list (option string))
  : list (option Timestamp.t) :=
  fmap (M := list) (λ x, x ≫= strptime) s.

(** ** [process_pizza_data] *)

Definition process_pizza_data (file_content : list byte)
  : result DataFrame :=
  match
    text ← decode file_content;
    csv ← read_csv text;
    let df := frame csv in
    let dt := inferred csv in
    (* the rows on which [*] will meet two text cells, as read *)
    let texts := text_times_text dt <$> rows df in
    unit_price ← getitem df unit_price_col;
    let df := fillna df quantity_col set_quantity (broadcast df 1%Qc) in
    let df := fillna df total_price_col set_total_price unit_price in
    order_date ← getitem df order_date_col;
    date_and_space ← str_add_scalar (of_order_date dt) order_date " ";
    order_time ← getitem df order_time_col;
    date_and_time ← str_add date_and_space (of_order_time dt) order_time;
    let parsed := to_datetime date_and_time in
    let df := setitem df order_datetime_col set_order_datetime parsed in
    let df := dropna df order_datetime_col in
    let texts := fst <$> filter (λ kv, is_Some kv.2) (zip texts parsed) in
    order_datetime ← getitem df order_datetime_col;
    let df := setitem df month_col set_month (dt_month order_datetime) in
    order_datetime ← getitem df order_datetime_col;
    let df := setitem df day_of_week_col set_day_of_week
                (dt_day_name order_datetime) in
    order_datetime ← getitem df order_datetime_col;
    let df := setitem df hour_col set_hour (dt_hour order_datetime) in
    quantity ← getitem df quantity_col;
    total_price ← getitem df total_price_col;
    revenue ← series_mul dt texts quantity total_price;
    let df := setitem df revenue_col set_revenue revenue in
    mret df
  with
  | Ok df => Ok df
  | Raise e =>
      Raise (HTTPException 400 ("Error processing file: " +:+ str e))
  | Unmodelled => Unmodelled
  end.

(** ** [calculate_metrics] *)

Definition calculate_metrics (df : DataFrame) : result Metrics :=
  revenue ← getitem df revenue_col;
  let total_revenue := series_sum revenue in
  order_id ← getitem df order_id_col;
  let total_orders := nunique order_id in
  let avg_order_value :=
    if 0 <? total_orders
    then (total_revenue / Qc_of_Z total_orders)%Qc else 0%Qc in
  (* df.copy(): the text column below is written to the copy only,
     which nothing reads afterwards. *)
  let df_serializable := df in
  order_datetime ← getitem df_serializable order_datetime_col;
  let df_serializable_order_datetime := dt_strftime order_datetime in
  pizza_name ← getitem df pizza_name_col;
  quantity ← getitem df quantity_col;
  revenue ← getitem df revenue_col;
  let popular_pizzas :=
    head_n 10
      (sort_values
         ((λ k, PopularPizza k (group_sum pizza_name quantity k)
                  (group_sum pizza_name revenue k))
            <$> group_keys String.leb pizza_name)) in
  pizza_category ← getitem df pizza_category_col;
  revenue ← getitem df revenue_col;
  let category_sales := groupby_sum String.leb pizza_category revenue in
  pizza_size ← getitem df pizza_size_col;
  revenue ← getitem df revenue_col;
  let size_sales := groupby_sum String.leb pizza_size revenue in
  order_datetime ← getitem df order_datetime_col;
  revenue ← getitem df revenue_col;
  let daily_sales :=
    (λ kv, (date_str kv.1, kv.2))
      <$> groupby_sum date_leb (dt_date order_datetime) revenue in
  hour ← getitem df hour_col;
  revenue ← getitem df revenue_col;
  let hourly_sales := groupby_sum Z.leb hour revenue in
  let data_preview := serializable_row df <$> head_n 10 (rows df) in
  quantity ← getitem df quantity_col;
  mret (MkMetrics (round2 total_revenue) total_orders
          (round2 avg_order_value) (int (series_sum quantity))
          popular_pizzas category_sales size_sales daily_sales
          hourly_sales data_preview).

(** ** The store and its handlers *)

(** [POST /api/upload]; [time] is the reading of [time.time()].  The
    handler returns its response and leaves the store as given back.  The
    store is written inside the [try] block before the response is built:
    when [JSONResponse] raises, the answer is the 500 of the [except]
    clause and the entry is in the store. *)
Definition upload_file (processed_data_store : gmap string Entry)
  (file_filename : string) (content : list byte) (time : Qc)
  : result UploadResponse * gmap string Entry :=
  if negb (endswith file_filename ".csv")
  then (Raise (HTTPException 400 "Only CSV files are allowed"),
        processed_data_store)
  else
    match
      processed_df ← process_pizza_data content;
      let file_id := pretty (int time) in
      metrics ← calculate_metrics processed_df;
      mret (file_id,
            MkEntry file_filename processed_df (len processed_df) metrics)
    with
    | Ok (file_id, entry) =>
        let processed_data_store :=
          <[file_id := entry]> processed_data_store in
        let content :=
          MkUploadResponse "File processed successfully" file_id
            (len (dataframe entry)) (metrics entry) in
        (match JSONResponse content with
         | Ok _ => Ok content
         | Raise e => Raise (HTTPException 500 (str e))
         | Unmodelled => Unmodelled
         end,
         processed_data_store)
    | Raise e => (Raise (HTTPException 500 (str e)), processed_data_store)
    | Unmodelled => (Unmodelled, processed_data_store)
    end.

(** [GET /api/metrics/{file_id}]. *)
Definition get_metrics (processed_data_store : gmap string Entry)
  (file_id : string) : result Metrics :=
  match processed_data_store !! file_id with
  | None => Raise (HTTPException 404 "File not found")
  | Some entry => Ok (metrics entry)
  end.

(** [GET /api/raw-data/{file_id}?limit=N]. *)
Definition get_raw_data (processed_data_store : gmap string Entry)
  (file_id : string) (limit : Z) : result (list (list (string * value))) :=
  match processed_data_store !! file_id with
  | None => Raise (HTTPException 404 "File not found")
  | Some entry =>
      let df := dataframe entry in
      Ok (serializable_row df <$> head_n limit (rows df))
  end.

Record FileInfo := MkFileInfo {
  info_filename : string;
  info_record_count : Z;
  upload_time : string }.

(** [GET /api/uploaded-files]: one item per stored entry, under its id. *)
Definition get_uploaded_files (processed_data_store : gmap string Entry)
  : gmap string FileInfo :=
  map_imap
    (λ file_id file_data,
       Some (MkFileInfo (filename file_data) (record_count file_data)
               file_id))
    processed_data_store.

(** [GET /]. *)
Definition health_check : string * string :=
  ("ready", "Pizza Analytics API is running!").

(** The stores the handlers can be given: the empty one at start-up, and
    the one each upload leaves. *)
Inductive reachable : gmap string Entry → Prop :=
| reachable_empty : reachable ∅
| reachable_upload store file_filename content time :
    reachable store →
    reachable (upload_file store file_filename content time).2.

End Pipeline.

(** ** [calculate_metrics] on frames as objects

    In Python a frame is an object: [calculate_metrics] is handed a
    reference to the caller's frame, and what it wrote to that object the
    caller, and a second call, would see.  Here the frames live in a heap
    and the function is given a reference; the copy it takes, the two
    frames it writes to and the writes are steps on the heap.
    [calculate_metrics] above is what these steps compute when the frame
    holds timestamps (lemma [calculate_metrics_on_heap]). *)
Module Objects.

(** An object of the heap: a frame of order lines, with the column of
    text that has taken the place of its [order_datetime], if any; or a
    grouped table of revenue per key, with the label of its key column,
    the keys being dates or their text. *)
Inductive object :=
| Lines (df : DataFrame) (order_datetime_text : option (list (option string)))
| Table (key_label : string) (keys : list (date + string))
    (revenues : list Qc).

(** The heap is the list of the objects made so far, and a reference is
    the position of its object.  A step on the heap has an outcome and
    leaves a heap. *)
Definition run (A : Type) : Type := list object → result A * list object.

#[global] Instance run_ret : MRet run := λ A a h, (Ok a, h).
#[global] Instance run_bind : MBind run := λ A B f m h,
  match m h with
  | (Ok a, h') => f a h'
  | (Raise e, h') => (Raise e, h')
  | (Unmodelled, h') => (Unmodelled, h')
  end.

Definition lift {A} (r : result A) : run A := λ h, (r, h).

(** A write to the heap. *)
Definition modify (f : list object → list object) : run unit := λ h, (Ok tt, f h).

(** A new object, behind a new reference. *)
Definition alloc (o : object) : run nat := λ h, (Ok (length h), h ++ [o]).

(** The frame of order lines behind a reference. *)
Definition lines (l : nat)
  : run (DataFrame * option (list (option string))) := λ h,
  match h !! l with
  | Some (Lines df text) => (Ok (df, text), h)
  | _ => (Unmodelled, h)
  end.

(** [df[c]], for a column other than [order_datetime]. *)
Definition read {A} (l : nat) (c : Series A) : run (list (option A)) :=
  o ← lines l; lift (getitem o.1 c).

(** [df['order_datetime'].dt]: the accessor is there for timestamps, not
    for text. *)
Definition dt (l : nat) : run (list (option Timestamp.t)) :=
  o ← lines l;
  cells ← lift (getitem o.1 order_datetime_col);
  match o.2 with
  | None => mret cells
  | Some _ =>
      lift (Raise (AttributeError
                     "Can only use .dt accessor with datetimelike values"))
  end.

(** [df.copy()]. *)
Definition copy (l : nat) : run nat :=
  o ← lines l; alloc (Lines o.1 o.2).

(** [df['order_datetime'] = text]: the column of the object behind [l] is
    replaced. *)
Definition write_text (l : nat) (text : list (option string)) : run unit :=
  o ← lines l;
  modify
    <[l := Lines (Frame (add_label (columns o.1) OrderDatetime) (rows o.1))
             (Some text)]>.

(** [groupby(dates)['revenue'].sum().reset_index()]: a new table, its key
    column under the name of the grouped column. *)
Definition reset_index (table : list (date * Qc)) : run nat :=
  alloc (Table "order_datetime" (inl <$> table.*1) table.*2).

(** [table.columns = [label, 'revenue']]. *)
Definition set_columns (l : nat) (label : string) : run unit := λ h,
  match h !! l with
  | Some (Table _ keys revenues) =>
      (Ok tt, <[l := Table label keys revenues]> h)
  | _ => (Unmodelled, h)
  end.

(** [table[label] = table[label].astype(str)]. *)
Definition astype_str (l : nat) (label : string) : run unit := λ h,
  match h !! l with
  | Some (Table key_label keys revenues) =>
      if decide (key_label = label)
      then (Ok tt,
            <[l := Table key_label
                     ((λ k, match k with
                            | inl d => inr (date_str d)
                            | inr s => inr s
                            end) <$> keys)
                     revenues]> h)
      else (Raise (KeyError label), h)
  | _ => (Unmodelled, h)
  end.

(** [table.to_dict('records')], as the [daily_sales] of the record: lines
    of a [date] that is text, with their revenue. *)
Definition to_dict (l : nat) : run (list (string * Qc)) := λ h,
  match h !! l with
  | Some (Table key_label keys revenues) =>
      match mapM (λ k, match k with inr s => Some s | inl _ => None end) keys
      with
      | Some texts =>
          if decide (key_label = "date") then (Ok (zip texts revenues), h)
          else (Unmodelled, h)
      | None => (Unmodelled, h)
      end
  | _ => (Unmodelled, h)
  end.

(** The two serialising loops over [df.head(10)]: a cell of
    [order_datetime] is the timestamp, or the text that has taken its
    place. *)
Definition preview (l : nat) : run (list (list (string * value))) :=
  o ← lines l;
  mret
    match o.2 with
    | None => serializable_row o.1 <$> head_n 10 (rows o.1)
    | Some text =>
        (λ rt : row * option string,
           (λ c, (column_name c,
                  convert_to_serializable
                    (if decide (c = OrderDatetime) then str_value rt.2
                     else cell_value c rt.1)))
             <$> columns o.1)
          <$> head_n 10 (zip (rows o.1) text)
    end.

Section Calls.

Context `{Pandas}.

Definition calculate_metrics (df : nat) : run Metrics :=
  revenue ← read df revenue_col;
  let total_revenue := series_sum revenue in
  order_id ← read df order_id_col;
  let total_orders := nunique order_id in
  let avg_order_value :=
    if 0 <? total_orders
    then (total_revenue / Qc_of_Z total_orders)%Qc else 0%Qc in
  df_serializable ← copy df;
  order_datetime ← dt df_serializable;
  _ ← write_text df_serializable (dt_strftime order_datetime);
  pizza_name ← read df pizza_name_col;
  quantity ← read df quantity_col;
  revenue ← read df revenue_col;
  let popular_pizzas :=
    head_n 10
      (sort_values
         ((λ k, PopularPizza k (group_sum pizza_name quantity k)
                  (group_sum pizza_name revenue k))
            <$> group_keys String.leb pizza_name)) in
  pizza_category ← read df pizza_category_col;
  revenue ← read df revenue_col;
  let category_sales := groupby_sum String.leb pizza_category revenue in
  pizza_size ← read df pizza_size_col;
  revenue ← read df revenue_col;
  let size_sales := groupby_sum String.leb pizza_size revenue in
  order_datetime ← dt df;
  revenue ← read df revenue_col;
  daily_sales ←
    reset_index (groupby_sum date_leb (dt_date order_datetime) revenue);
  _ ← set_columns daily_sales "date";
  _ ← astype_str daily_sales "date";
  hour ← read df hour_col;
  revenue ← read df revenue_col;
  let hourly_sales := groupby_sum Z.leb hour revenue in
  data_preview ← preview df;
  quantity ← read df quantity_col;
  daily_sales ← to_dict daily_sales;
  mret (MkMetrics (round2 total_revenue) total_orders
          (round2 avg_order_value) (int (series_sum quantity))
          popular_pizzas category_sales size_sales daily_sales
          hourly_sales data_preview).

(** Two calls on the same frame, one after the other. *)
Definition aggregate_twice (df : nat) : run (Metrics * Metrics) :=
  m1 ← calculate_metrics df; m2 ← calculate_metrics df; mret (m1, m2).

End Calls.

End Objects.

(** ** The pipeline, row by row

    What the column operations of the source do to one row, and what its
    metrics are in terms of the rows.  [process_pizza_data_Ok] and
    [calculate_metrics_Ok] below relate these to the two functions. *)

Definition fill_quantity (r : row) : row :=
  fill_cell quantity_col set_quantity (Some 1%Qc) r.

Definition fill_total_price (r : row) : row :=
  fill_cell total_price_col set_total_price (unit_price r) r.

(** [order_date + ' ' + order_time] of one row. *)
Definition order_text (r : row) : option string :=
  d ← order_date r; t ← order_time r; Some ((d +:+ " ") +:+ t).

(** The columns [process_pizza_data] reads from the file. *)
Definition transform_columns : list column :=
  [UnitPrice; OrderDate; OrderTime; Quantity; TotalPrice].

(** The columns [calculate_metrics] reads. *)
Definition metric_columns : list column :=
  [Revenue; OrderId; OrderDatetime; PizzaName; Quantity; PizzaCategory;
   PizzaSize; Hour].

(** The columns of a frame after the five derived ones are set. *)
Definition transformed_columns (cols : list column) : list column :=
  add_label
    (add_label
       (add_label (add_label (add_label cols OrderDatetime) Month) DayOfWeek)
       Hour)
    Revenue.

(** The columns an upload needs: those of [transform_columns] and the
    four keys that only [calculate_metrics] reads. *)
Definition required_columns : list column :=
  [OrderId; OrderDate; OrderTime; Quantity; UnitPrice; TotalPrice;
   PizzaName; PizzaCategory; PizzaSize].

(** What a JSON encoder takes: null, a number or text. *)
Definition json_safe (v : value) : bool :=
  match v with
  | VNone | VNum _ | VStr _ => true
  | VTimestamp _ | VNaN => false
  end.

(** The part of a row that the transformation never writes. *)
Definition order_record (r : row) :=
  (order_id r, order_date r, order_time r, pizza_name r, pizza_category r,
   pizza_size r, unit_price r).

(** The sum of a list of numbers. *)
Definition Qc_sum (l : list Qc) : Qc := foldr Qcplus 0%Qc l.

(** A cell added to a running sum, as [sum()] does: a missing cell adds
    nothing. *)
Definition add_cell (c : option Qc) (acc : Qc) : Qc :=
  match c with Some v => (v + acc)%Qc | None => acc end.

(** The sum of the values paired with key [k]. *)
Definition pair_sum `{EqDecision K} (kvs : list (option K * option Qc))
  (k : K) : Qc :=
  series_sum (snd <$> filter (λ kv, kv.1 = Some k) kvs).

(** A table of revenue per key: one line per key that some row has, the
    keys in ascending order, each with the revenue of the rows of that
    key. *)
Definition revenue_by `{EqDecision K} (key : row → option K)
  (leb : K → K → bool) (rs : list row) (table : list (K * Qc)) : Prop :=
  NoDup table.*1
  ∧ Sorted (λ a b, leb a b) table.*1
  ∧ ∀ k v, (k, v) ∈ table
           ↔ Some k ∈ key <$> rs
             ∧ v = series_sum (revenue <$> filter (λ r, key r = Some k) rs).

(** The revenue of the rows that have a key. *)
Definition keyed_revenue {K} (key : row → option K) (rs : list row) : Qc :=
  series_sum (revenue <$> filter (λ r, is_Some (key r)) rs).

(** Descending order of quantity. *)
Definition descending : relation popular_pizza :=
  λ a b, (pp_quantity b ≤ pp_quantity a)%Qc.

#[global] Instance descending_dec : RelDecision descending.
Proof. intros a b. unfold descending. apply _. Defined.

Section RowByRow.

Context `{Pandas}.

(** The timestamp of a row, when its text parses under the format. *)
Definition order_timestamp (r : row) : option Timestamp.t :=
  order_text r ≫= strptime.

(** The row with its [order_datetime] cell set. *)
Definition with_datetime (r : row) : row :=
  set_order_datetime (order_timestamp r) r.

(** The row with [month], [day_of_week], [hour] and [revenue] set. *)
Definition derive (r : row) : row :=
  let r := set_month (Timestamp.month <$> order_datetime r) r in
  let r := set_day_of_week (Timestamp.day_name <$> order_datetime r) r in
  let r := set_hour (Timestamp.hour <$> order_datetime r) r in
  set_revenue (q ← quantity r; p ← total_price r; Some (q * p)%Qc) r.

(** What becomes of an input row that is kept. *)
Definition transform_row (r : row) : row :=
  derive (with_datetime (fill_total_price (fill_quantity r))).

(** The frame [process_pizza_data] makes of a frame read with the dtypes
    of the data model: the rows whose text parses, transformed. *)
Definition transformed_frame (df : DataFrame) : DataFrame :=
  Frame (transformed_columns (columns df))
    (transform_row <$> filter (λ r, is_Some (order_timestamp r)) (rows df)).

(** What the [try] block of [process_pizza_data] runs into on a frame as
    read, in the order the function meets it: the [KeyError] of a column
    the frame does not have, the [TypeError] of an operator on a column of
    the wrong dtype, the end of the model, or nothing. *)
Definition transform_check (csv : Csv) : result unit :=
  let df := frame csv in
  let dt := inferred csv in
  let missing c := bool_decide (c ∉ columns df) in
  if missing UnitPrice then Raise (KeyError (column_name UnitPrice))
  else if missing OrderDate then Raise (KeyError (column_name OrderDate))
  else if bool_decide (of_order_date dt = number)
  then Raise (TypeError "number + str")
  else if missing OrderTime then Raise (KeyError (column_name OrderTime))
  else if bool_decide (of_order_time dt = number)
  then
    if bool_decide
         (Exists (λ r, is_Some (order_date r) ∧ is_Some (order_time r))
            (rows df))
    then Raise (TypeError "str + number") else Unmodelled
  else if missing Quantity then Raise (KeyError (column_name Quantity))
  else if missing TotalPrice then Raise (KeyError (column_name TotalPrice))
  else if bool_decide (of_quantity dt = number ∧ of_unit_price dt = number
                       ∧ of_total_price dt = number)
  then Ok tt
  else if bool_decide
            (Exists (λ r, is_Some (order_timestamp r)
                          ∧ text_times_text dt r = true) (rows df))
  then Raise (TypeError "str * str")
  else Unmodelled.

(** The run of the [try] block: decoding, reading, the checks above, and
    the frame returned. *)
Definition transform (file_content : list byte) : result DataFrame :=
  text ← decode file_content;
  csv ← read_csv text;
  _ ← transform_check csv;
  mret (transformed_frame (frame csv)).

(** The exception raised inside the [try] block, if any. *)
Definition transform_error (file_content : list byte)
  : option Exception :=
  match transform file_content with
  | Raise e => Some e
  | Ok _ | Unmodelled => None
  end.

(** What the source relies on [sort_values] for: the rows of the table,
    rearranged into descending order of quantity. *)
Definition sort_contract : Prop :=
  ∀ l, sort_values l ≡ₚ l ∧ StronglySorted descending (sort_values l).

(** The local [total_revenue], before it is rounded for the record. *)
Definition revenue_sum (df : DataFrame) : Qc :=
  series_sum (revenue <$> rows df).

Definition quantity_sum (df : DataFrame) : Qc :=
  series_sum (quantity <$> rows df).

(** The rows of pizza [name]. *)
Definition rows_of_pizza (df : DataFrame) (name : string) : list row :=
  filter (λ r, pizza_name r = Some name) (rows df).

(** The grouped table that [sort_values] receives: one entry per pizza
    name, in ascending order of the names. *)
Definition pizza_table (df : DataFrame) : list popular_pizza :=
  (λ k, PopularPizza k
          (group_sum (pizza_name <$> rows df) (quantity <$> rows df) k)
          (group_sum (pizza_name <$> rows df) (revenue <$> rows df) k))
    <$> group_keys String.leb (pizza_name <$> rows df).

(** The record [calculate_metrics] returns, read off the rows. *)
Definition metrics_of (df : DataFrame) : Metrics :=
  let total_orders := nunique (order_id <$> rows df) in
  MkMetrics
    (round2 (revenue_sum df))
    total_orders
    (round2 (if 0 <? total_orders
             then (revenue_sum df / Qc_of_Z total_orders)%Qc else 0%Qc))
    (int (quantity_sum df))
    (head_n 10 (sort_values (pizza_table df)))
    (groupby_sum String.leb (pizza_category <$> rows df)
       (revenue <$> rows df))
    (groupby_sum String.leb (pizza_size <$> rows df) (revenue <$> rows df))
    ((λ kv, (date_str kv.1, kv.2))
       <$> groupby_sum date_leb (dt_date (order_datetime <$> rows df))
             (revenue <$> rows df))
    (groupby_sum Z.leb (hour <$> rows df) (revenue <$> rows df))
    (serializable_row df <$> head_n 10 (rows df)).

End RowByRow.

(** ** A concrete library instance

    Used to run the pipeline on sample files: a parser for the two-digit
    instances of the format, a stable descending sort, a CSV reader given
    by a table of sample files, and [str] as Python prints the exceptions. *)

Module Fixture.

Definition digit (a : ascii) : option Z :=
  let n := Z.of_N (N_of_ascii a) in
  if (48 <=? n) && (n <=? 57) then Some (n - 48) else None.

Definition digits2 (a b : ascii) : option Z :=
  x ← digit a; y ← digit b; Some (10 * x + y).

Definition is_leap (y : Z) : bool :=
  ((y mod 4 =? 0) && negb (y mod 100 =? 0)) || (y mod 400 =? 0).

Definition days_in_month (y m : Z) : Z :=
  match m with
  | 2 => if is_leap y then 29 else 28
  | 4 | 6 | 9 | 11 => 30
  | _ => 31
  end.

(** [MM/DD/YYYY HH:MM:SS] with every field at full width. *)
Definition strptime_fixed_width (s : string) : option Timestamp.t :=
  match list_ascii_of_string s with
  | [m1; m2; s1; d1; d2; s2; y1; y2; y3; y4; sp;
     h1; h2; c1; n1; n2; c2; e1; e2] =>
      if Ascii.eqb s1 "/" && Ascii.eqb s2 "/" && Ascii.eqb sp " "
         && Ascii.eqb c1 ":" && Ascii.eqb c2 ":"
      then
        mo ← digits2 m1 m2; da ← digits2 d1 d2;
        yh ← digits2 y1 y2; yl ← digits2 y3 y4;
        ho ← digits2 h1 h2; mi ← digits2 n1 n2; se ← digits2 e1 e2;
        let ye := 100 * yh + yl in
        if (1 <=? mo) && (mo <=? 12) && (1 <=? da)
           && (da <=? days_in_month ye mo)
           && (ho <=? 23) && (mi <=? 59) && (se <=? 59)
        then Some (Timestamp.mk ye mo da ho mi se) else None
      else None
  | _ => None
  end.

(** Insertion into a list sorted by descending quantity, after the
    entries of equal quantity that come from later positions. *)
Fixpoint insert_desc (x : popular_pizza) (l : list popular_pizza)
  : list popular_pizza :=
  match l with
  | [] => [x]
  | y :: l' =>
      if decide (pp_quantity y ≤ pp_quantity x)%Qc then x :: y :: l'
      else y :: insert_desc x l'
  end.

(** A stable sort by descending quantity. *)
Definition sort_stable (l : list popular_pizza) : list popular_pizza :=
  foldr insert_desc [] l.

Definition str_of (e : Exception) : string :=
  match e with
  | UnicodeDecodeError => "'utf-8' codec can't decode the bytes"
  | ParserError msg | TypeError msg | ValueError msg | AttributeError msg =>
      msg
  | KeyError key => "'" +:+ key +:+ "'"
  | HTTPException status_code detail =>
      pretty status_code +:+ ": " +:+ detail
  end.

Definition nl : string := String (ascii_of_nat 10) "".

Definition csv_columns : list column :=
  [OrderId; OrderDate; OrderTime; PizzaName; PizzaCategory; PizzaSize;
   Quantity; UnitPrice; TotalPrice].

(** A row as the reader returns it: no derived cell yet. *)
Definition csv_row (id : option Z) (d t : string) (name category : string)
  (size : string) (q u p : option Qc) : row :=
  Row id (Some d) (Some t) (Some name) (Some category) (Some size) q u p
      None None None None None.

Definition num (n : Z) : option Qc := Some (Qc_of_Z n).

Definition bytes (text : string) : list byte := list_byte_of_string text.

(** Two order lines without [total_price] and one with a bad time. *)
Definition orders_csv : string :=
  String.concat nl [
    "order_id,order_date,order_time,pizza_name,pizza_category,pizza_size,quantity,unit_price,total_price";
    "1,01/01/2023,12:00:00,Margherita,Classic,M,2,5,";
    "2,01/01/2023,12:00:00,Hawaiian,Classic,L,2,5,";
    "3,01/02/2023,25:99:99,Veggie,Veggie,S,1,4,4"].
Definition orders_frame : DataFrame :=
  Frame csv_columns [
    csv_row (Some 1) "01/01/2023" "12:00:00" "Margherita" "Classic" "M"
      (num 2) (num 5) None;
    csv_row (Some 2) "01/01/2023" "12:00:00" "Hawaiian" "Classic" "L"
      (num 2) (num 5) None;
    csv_row (Some 3) "01/02/2023" "25:99:99" "Veggie" "Veggie" "S"
      (num 1) (num 4) (num 4)].

(** The same kind of file without the [order_id] column. *)
Definition no_order_id_csv : string :=
  String.concat nl [
    "order_date,order_time,pizza_name,pizza_category,pizza_size,quantity,unit_price,total_price";
    "01/01/2023,12:00:00,Margherita,Classic,M,2,5,10"].
Definition no_order_id_frame : DataFrame :=
  Frame [OrderDate; OrderTime; PizzaName; PizzaCategory; PizzaSize;
         Quantity; UnitPrice; TotalPrice] [
    csv_row None "01/01/2023" "12:00:00" "Margherita" "Classic" "M"
      (num 2) (num 5) (num 10)].

(** One line with a fractional quantity. *)
Definition half_csv : string :=
  String.concat nl [
    "order_id,order_date,order_time,pizza_name,pizza_category,pizza_size,quantity,unit_price,total_price";
    "1,01/01/2023,12:00:00,Margherita,Classic,M,1.5,4,4"].
Definition half_frame : DataFrame :=
  Frame csv_columns [
    csv_row (Some 1) "01/01/2023" "12:00:00" "Margherita" "Classic" "M"
      (Some (Q2Qc (3 # 2))) (num 4) (num 4)].

(** Two pizzas sold once each, in either file order. *)
Definition veggie_first_csv : string :=
  String.concat nl [
    "order_id,order_date,order_time,pizza_name,pizza_category,pizza_size,quantity,unit_price,total_price";
    "1,01/01/2023,12:00:00,Veggie,Veggie,M,1,5,5";
    "2,01/01/2023,12:00:00,Hawaiian,Classic,M,1,5,5"].
Definition veggie_first_frame : DataFrame :=
  Frame csv_columns [
    csv_row (Some 1) "01/01/2023" "12:00:00" "Veggie" "Veggie" "M"
      (num 1) (num 5) (num 5);
    csv_row (Some 2) "01/01/2023" "12:00:00" "Hawaiian" "Classic" "M"
      (num 1) (num 5) (num 5)].
Definition hawaiian_first_csv : string :=
  String.concat nl [
    "order_id,order_date,order_time,pizza_name,pizza_category,pizza_size,quantity,unit_price,total_price";
    "2,01/01/2023,12:00:00,Hawaiian,Classic,M,1,5,5";
    "1,01/01/2023,12:00:00,Veggie,Veggie,M,1,5,5"].
Definition hawaiian_first_frame : DataFrame :=
  Frame csv_columns [
    csv_row (Some 2) "01/01/2023" "12:00:00" "Hawaiian" "Classic" "M"
      (num 1) (num 5) (num 5);
    csv_row (Some 1) "01/01/2023" "12:00:00" "Veggie" "Veggie" "M"
      (num 1) (num 5) (num 5)].

(** Two lines of one order and a line whose [order_id] is empty. *)
Definition anonymous_csv : string :=
  String.concat nl [
    "order_id,order_date,order_time,pizza_name,pizza_category,pizza_size,quantity,unit_price,total_price";
    "7,01/01/2023,12:00:00,Veggie,Veggie,M,1,5,5";
    ",01/01/2023,13:00:00,Hawaiian,Classic,M,2,6,12";
    "7,01/01/2023,12:00:00,Margherita,Classic,S,1,4,4"].
Definition anonymous_frame : DataFrame :=
  Frame csv_columns [
    csv_row (Some 7) "01/01/2023" "12:00:00" "Veggie" "Veggie" "M"
      (num 1) (num 5) (num 5);
    csv_row None "01/01/2023" "13:00:00" "Hawaiian" "Classic" "M"
      (num 2) (num 6) (num 12);
    csv_row (Some 7) "01/01/2023" "12:00:00" "Margherita" "Classic" "S"
      (num 1) (num 4) (num 4)].

(** One line whose date is written [20230101]: the column holds nothing
    but digits, and the reader makes numbers of it. *)
Definition digits_csv : string :=
  String.concat nl [
    "order_id,order_date,order_time,pizza_name,pizza_category,pizza_size,quantity,unit_price,total_price";
    "1,20230101,12:00:00,Margherita,Classic,M,2,5,10"].
Definition digits_frame : DataFrame :=
  Frame csv_columns [
    csv_row (Some 1) "20230101" "12:00:00" "Margherita" "Classic" "M"
      (num 2) (num 5) (num 10)].

(** One line whose quantity and total price are words: the reader keeps
    both columns as text. *)
Definition words_csv : string :=
  String.concat nl [
    "order_id,order_date,order_time,pizza_name,pizza_category,pizza_size,quantity,unit_price,total_price";
    "1,01/01/2023,12:00:00,Margherita,Classic,M,two,5,ten"].
Definition words_frame : DataFrame :=
  Frame csv_columns [
    csv_row (Some 1) "01/01/2023" "12:00:00" "Margherita" "Classic" "M"
      (num 0) (num 5) (num 0)].

(** The sample files that are read with the dtypes of the data model. *)
Definition sample_files : list (string * DataFrame) :=
  [(orders_csv, orders_frame); (no_order_id_csv, no_order_id_frame);
   (half_csv, half_frame); (veggie_first_csv, veggie_first_frame);
   (hawaiian_first_csv, hawaiian_first_frame);
   (anonymous_csv, anonymous_frame)].

(** The reader on the sample files; any other text is refused. *)
Definition read_samples (text : string) : result Csv :=
  if decide (text = digits_csv)
  then Ok (MkCsv digits_frame (MkDtypes number object number number number))
  else if decide (text = words_csv)
  then Ok (MkCsv words_frame (MkDtypes object object object number object))
  else
    match list_find (λ kv, kv.1 = text) sample_files with
    | Some (_, (_, df)) => Ok (Typed df)
    | None => Raise (ParserError "Error tokenizing data")
    end.

Definition pandas : Pandas :=
  {| read_csv := read_samples;
     strptime := strptime_fixed_width;
     sort_values := sort_stable;
     str := str_of;
     JSONResponse := λ _, Ok tt |}.

(** The frame stored for a sample file. *)
Definition transformed (text : string) : DataFrame :=
  match @process_pizza_data pandas (bytes text) with
  | Ok df => df
  | Raise _ | Unmodelled => Frame [] []
  end.

(** The store after one upload of the order lines. *)
Definition uploaded : result UploadResponse * gmap string Entry :=
  @upload_file pandas ∅ "orders.csv" (bytes orders_csv)
    (Qc_of_Z 1700000000).

(** The second line of the file with an empty [order_id], transformed. *)
Definition anonymous_row : row :=
  transform_row (H := pandas)
    (csv_row None "01/01/2023" "13:00:00" "Hawaiian" "Classic" "M"
       (num 2) (num 6) (num 12)).

(** The items of a list in the order they first occur. *)
Definition first_occurrences `{EqDecision A} (l : list A) : list A :=
  foldl (λ acc x, if decide (x ∈ acc) then acc else acc ++ [x]) [] l.

(** [popular_pizzas] in the words of the claim: the groups in the order
    their names are first met in the frame, sorted by descending summed
    quantity so that equal quantities keep that order, the first 10. *)
Definition popular_pizzas_by_first_encounter (df : DataFrame)
  : list popular_pizza :=
  take 10
    (sort_stable
       ((λ k, PopularPizza k
                (series_sum (quantity <$> rows_of_pizza df k))
                (series_sum (revenue <$> rows_of_pizza df k)))
          <$> first_occurrences (omap pizza_name (rows df)))).

End Fixture.

(** ** A file without lines

    The header of the sample files alone, and the instance whose reader
    takes it as well: a frame with the nine columns and no row. *)

Definition header_csv : string :=
  "order_id,order_date,order_time,pizza_name,pizza_category,pizza_size,quantity,unit_price,total_price".

Definition read_header (text : string) : result Csv :=
  if decide (text = header_csv) then Ok (Typed (Frame Fixture.csv_columns []))
  else Fixture.read_samples text.

Definition pandas_header : Pandas :=
  {| read_csv := read_header;
     strptime := Fixture.strptime_fixed_width;
     sort_values := Fixture.sort_stable;
     str := Fixture.str_of;
     JSONResponse := λ _, Ok tt |}.

(** ** A response that does not render

    The instance of the sample files, with a [JSONResponse] that takes no
    content: what an upload leaves when the response fails. *)
Definition pandas_unrendered : Pandas :=
  {| read_csv := Fixture.read_samples;
     strptime := Fixture.strptime_fixed_width;
     sort_values := Fixture.sort_stable;
     str := Fixture.str_of;
     JSONResponse := λ _,
       Raise (ValueError
                "Out of range float values are not JSON compliant") |}.

(** * Properties *)

(** ** Lists and columns *)

(** Membership in a list given by its items. *)
Ltac elem_of_items := repeat first [by left | right].

Lemma filter_fmap {A B} (P : B → Prop) `{∀ x, Decision (P x)}
  (f : A → B) (l : list A) :
  filter P (f <$> l) = f <$> filter (λ x, P (f x)) l.
Proof.
  induction l as [|x l IH]; [done|].
  rewrite fmap_cons, !filter_cons, IH. by destruct (decide (P (f x))).
Qed.

Lemma elem_of_add_label cols l c : c ∈ add_label cols l ↔ c ∈ cols ∨ c = l.
Proof.
  unfold add_label. case_bool_decide as Hl.
  - split; [by left|]. by intros [?| ->].
  - rewrite elem_of_app, list_elem_of_singleton. tauto.
Qed.

Lemma add_label_mono cols l c : c ∈ cols → c ∈ add_label cols l.
Proof. intros. apply elem_of_add_label. by left. Qed.

Lemma add_label_new cols l : l ∈ add_label cols l.
Proof. apply elem_of_add_label. by right. Qed.

(** Frames and columns over a common list of positions [l]. *)
Section Columnwise.

Context {X : Type} (l : list X) (cols : list column) (h : X → row).

Lemma getitem_fmap {A} (c : Series A) :
  label c ∈ cols →
  getitem (Frame cols (h <$> l)) c = Ok ((λ x, cell c (h x)) <$> l).
Proof.
  intros Hc. unfold getitem. simpl.
  rewrite bool_decide_eq_true_2 by done. by rewrite <- list_fmap_compose.
Qed.

Lemma setitem_fmap {A} (c : Series A) set (g : X → option A) :
  setitem (Frame cols (h <$> l)) c set (g <$> l) =
    Frame (add_label cols (label c)) ((λ x, set (g x) (h x)) <$> l).
Proof.
  unfold setitem. simpl.
  by rewrite zip_with_fmap_l, zip_with_fmap_r, zip_with_diag.
Qed.

Lemma fillna_fmap {A} (c : Series A) set (g : X → option A) :
  label c ∈ cols →
  fillna (Frame cols (h <$> l)) c set (g <$> l) =
    Frame cols ((λ x, fill_cell c set (g x) (h x)) <$> l).
Proof.
  intros Hc. unfold fillna. simpl.
  rewrite bool_decide_eq_true_2 by done.
  by rewrite zip_with_fmap_l, zip_with_fmap_r, zip_with_diag.
Qed.

Lemma broadcast_fmap {A} (v : A) :
  broadcast (Frame cols (h <$> l)) v = (λ _, Some v) <$> l.
Proof.
  unfold broadcast. simpl. rewrite length_fmap.
  induction l; simpl; by f_equal.
Qed.

Lemma dropna_fmap {A} (c : Series A) :
  dropna (Frame cols (h <$> l)) c =
    Frame cols (h <$> filter (λ x, is_Some (cell c (h x))) l).
Proof. unfold dropna. simpl. by rewrite filter_fmap. Qed.

Lemma str_add_fmap (g1 g2 : X → option string) :
  str_add (g1 <$> l) object (g2 <$> l) =
    Ok ((λ x, a ← g1 x; b ← g2 x; Some (a +:+ b)) <$> l).
Proof.
  unfold str_add.
  by rewrite zip_with_fmap_l, zip_with_fmap_r, zip_with_diag.
Qed.

Lemma str_add_number_fmap (g1 g2 : X → option string) :
  str_add (g1 <$> l) number (g2 <$> l) =
    if bool_decide (Exists (λ x, is_Some (g1 x) ∧ is_Some (g2 x)) l)
    then Raise (TypeError "str + number") else Unmodelled.
Proof.
  unfold str_add.
  rewrite zip_with_fmap_l, zip_with_fmap_r, zip_with_diag.
  rewrite (bool_decide_ext _
             (Exists (λ x, is_Some (g1 x) ∧ is_Some (g2 x)) l)); [done|].
  by rewrite Exists_fmap.
Qed.

Lemma series_mul_fmap (texts : list bool) (g1 g2 : X → option Qc) :
  series_mul data_model texts (g1 <$> l) (g2 <$> l) =
    Ok ((λ x, a ← g1 x; b ← g2 x; Some (a * b)%Qc) <$> l).
Proof.
  unfold series_mul. rewrite bool_decide_eq_true_2 by done.
  by rewrite zip_with_fmap_l, zip_with_fmap_r, zip_with_diag.
Qed.

End Columnwise.

Lemma getitem_Ok {A} (df : DataFrame) (c : Series A) :
  label c ∈ columns df → getitem df c = Ok (cell c <$> rows df).
Proof. intros Hc. unfold getitem. by rewrite bool_decide_eq_true_2. Qed.

Lemma getitem_Raise {A} (df : DataFrame) (c : Series A) :
  label c ∉ columns df →
  getitem df c = Raise (KeyError (column_name (label c))).
Proof. intros Hc. unfold getitem. by rewrite bool_decide_eq_false_2. Qed.

Section Transformation.

Context `{Pandas}.

Lemma order_timestamp_fill r :
  order_timestamp (fill_total_price (fill_quantity r)) = order_timestamp r.
Proof.
  unfold order_timestamp, order_text, fill_total_price, fill_quantity.
  destruct r as [? ? ? ? ? ? [q|] ? [p|] ? ? ? ? ?]; done.
Qed.

Lemma columns_fillna {A} df (c : Series A) set value :
  columns (fillna df c set value) = columns df.
Proof. unfold fillna. by case_bool_decide. Qed.

Lemma find_missing_None cols (l : list column) :
  List.find (λ c, negb (bool_decide (c ∈ cols))) l = None ↔ l ⊆ cols.
Proof.
  induction l as [|c l IH]; cbn.
  - split; [|done]. intros _ c Hc. by apply elem_of_nil in Hc.
  - case_bool_decide as Hc; cbn.
    + rewrite IH. split.
      * intros Hl c' [->|?]%elem_of_cons; [done|by apply Hl].
      * intros Hl c' ?. apply Hl. by right.
    + split; [done|]. intros Hl. destruct Hc. apply Hl. by left.
Qed.

(** The rows on which two text cells meet, among those that are kept. *)
Lemma kept_texts (dt : dtypes) (rows0 : list row)
  (g : row → option Timestamp.t) :
  true ∈ (fst <$> filter (λ kv : bool * option Timestamp.t, is_Some kv.2)
                    (zip (text_times_text dt <$> rows0) (g <$> rows0)))
  ↔ Exists (λ r, is_Some (g r) ∧ text_times_text dt r = true) rows0.
Proof.
  rewrite zip_with_fmap_l, zip_with_fmap_r, zip_with_diag.
  rewrite filter_fmap, <- list_fmap_compose, list_elem_of_fmap.
  rewrite Exists_exists. split.
  - intros (r & Hr & [Hg Hin%list_elem_of_In]%list_elem_of_filter).
    exists r. by split.
  - intros (r & Hin%list_elem_of_In & Hg & Hr). exists r.
    split; [done|]. by apply list_elem_of_filter.
Qed.

(** One test of [transform_check] on a column that the frame has, or
    does not have. *)
Ltac present Hc :=
  rewrite (bool_decide_eq_false_2 (_ ∉ _)) by (intros Hn; exact (Hn Hc)).
Ltac absent Hc := rewrite (bool_decide_eq_true_2 (_ ∉ _) Hc).
Ltac absent_after Hc :=
  rewrite (bool_decide_eq_true_2 (_ ∉ _)); [done|];
  intros Hn; apply Hc; do 3 left; by apply add_label_mono.

(** One column access of the stepping proof: either the label is there
    and the run goes on, or the access raises. *)
Ltac getitem_cases c Hc :=
  match goal with
  | |- context [getitem ?df c] =>
      destruct (decide (label c ∈ columns df)) as [Hc|Hc];
      [ rewrite (getitem_Ok df c Hc); cbn [mbind result_bind]
      | rewrite (getitem_Raise df c Hc); cbn [mbind result_bind] ];
      cbn [columns setitem dropna label order_datetime_col unit_price_col
             order_date_col order_time_col quantity_col total_price_col
             month_col day_of_week_col hour_col revenue_col] in Hc;
      rewrite ?columns_fillna, ?elem_of_add_label in Hc
  end.

(** [process_pizza_data] on any input: the frame that [transform]
    returns, the 400 error of the exception it raises, or the end of the
    model. *)
Lemma process_pizza_data_cases file_content :
  process_pizza_data file_content =
    match transform file_content with
    | Ok df => Ok df
    | Raise e =>
        Raise (HTTPException 400 ("Error processing file: " +:+ str e))
    | Unmodelled => Unmodelled
    end.
Proof.
  unfold process_pizza_data, transform.
  destruct (decode file_content) as [text|e|]; [|done..].
  cbn [mbind result_bind].
  destruct (read_csv text) as [[[cols rows0] [d t q u p]]|e|]; [|done..].
  cbn [mbind result_bind frame inferred]. cbv zeta.
  unfold transform_check.
  cbn [frame inferred columns rows of_order_date of_order_time of_quantity
         of_unit_price of_total_price].
  cbv zeta.
  set (dt := MkDtypes d t q u p).
  getitem_cases unit_price_col H1; [present H1|by absent H1].
  cbn [rows cell unit_price_col].
  (* the frame after the two fills *)
  assert (∃ h : row → row,
            fillna
              (fillna (Frame cols rows0) quantity_col set_quantity
                 (broadcast (Frame cols rows0) 1%Qc))
              total_price_col set_total_price (unit_price <$> rows0)
            = Frame cols (h <$> rows0)
            ∧ (∀ r, order_date (h r) = order_date r
                    ∧ order_time (h r) = order_time r)
            ∧ (Quantity ∈ cols → TotalPrice ∈ cols →
               ∀ r, h r = fill_total_price (fill_quantity r)))
    as (h & -> & Hh & Hfill).
  { replace (Frame cols rows0) with (Frame cols (id <$> rows0))
      by (by rewrite list_fmap_id).
    rewrite broadcast_fmap.
    destruct (decide (Quantity ∈ cols)) as [Hq|Hq];
      destruct (decide (TotalPrice ∈ cols)) as [Hp|Hp].
    - rewrite fillna_fmap by done. rewrite fillna_fmap by done.
      eexists. split; [reflexivity|].
      split; [|intros _ _]; by intros [? ? ? ? ? ? [?|] ? [?|] ? ? ? ? ?].
    - rewrite fillna_fmap by done.
      unfold fillna at 1. cbn [columns]. rewrite bool_decide_eq_false_2 by done.
      eexists. split; [reflexivity|]. split; [|by intros ? ?].
      by intros [? ? ? ? ? ? [?|] ? ? ? ? ? ? ?].
    - unfold fillna at 2. cbn [columns]. rewrite bool_decide_eq_false_2 by done.
      rewrite fillna_fmap by done.
      eexists. split; [reflexivity|]. split; [|by intros ? ?].
      by intros [? ? ? ? ? ? ? ? [?|] ? ? ? ? ?].
    - unfold fillna at 2. cbn [columns]. rewrite bool_decide_eq_false_2 by done.
      unfold fillna. cbn [columns]. rewrite bool_decide_eq_false_2 by done.
      exists id. rewrite list_fmap_id. split; [done|]. split; [done|].
      by intros ? ?. }
  getitem_cases order_date_col H2; [present H2|by absent H2].
  cbn [rows cell order_date_col]. rewrite <- list_fmap_compose.
  destruct d; cbn [str_add_scalar mbind result_bind].
  2:{ by rewrite bool_decide_eq_true_2. }
  rewrite bool_decide_eq_false_2 by done.
  getitem_cases order_time_col H3; [present H3|by absent H3].
  cbn [rows cell order_time_col]. rewrite <- !list_fmap_compose.
  destruct t.
  2:{ rewrite (bool_decide_eq_true_2 (number = number)) by done.
      rewrite str_add_number_fmap.
      rewrite (bool_decide_ext _
                 (Exists (λ r, is_Some (order_date r) ∧ is_Some (order_time r))
                    rows0)).
      - by case_bool_decide.
      - rewrite !Exists_exists. unfold compose.
        split; intros (r & Hr & Hd); exists r; (split; [done|]);
          destruct (Hh r) as [Hd' Ht']; rewrite Hd', Ht' in *;
          by rewrite fmap_is_Some in *. }
  rewrite bool_decide_eq_false_2 by done.
  rewrite str_add_fmap. cbn [mbind result_bind].
  unfold to_datetime. rewrite <- list_fmap_compose.
  rewrite setitem_fmap, dropna_fmap.
  cbn [cell order_datetime_col label].
  set (parsed := (λ x : option string, x ≫= strptime) ∘ _).
  assert (∀ r, parsed r = order_timestamp r) as Hparsed.
  { intros r. subst parsed. unfold compose, order_timestamp, order_text.
    destruct (Hh r) as [-> ->].
    by destruct (order_date r), (order_time r). }
  set (cols1 := add_label cols OrderDatetime).
  assert (OrderDatetime ∈ cols1) as Hdt by apply add_label_new.
  unfold dt_month, dt_day_name, dt_hour.
  rewrite getitem_fmap by done. cbn [mbind result_bind].
  rewrite <- list_fmap_compose, setitem_fmap.
  rewrite getitem_fmap by by apply add_label_mono.
  cbn [mbind result_bind].
  rewrite <- list_fmap_compose, setitem_fmap.
  rewrite getitem_fmap by by do 2 apply add_label_mono.
  cbn [mbind result_bind].
  rewrite <- list_fmap_compose, setitem_fmap.
  cbn [label month_col day_of_week_col hour_col].
  getitem_cases quantity_col H4.
  2:{ absent_after H4. }
  assert (Quantity ∈ cols) as Hq.
  { destruct H4 as [[[Hq|[=]]|[=]]|[=]].
    by apply elem_of_add_label in Hq as [?|[=]]. }
  present Hq.
  getitem_cases total_price_col H5.
  2:{ absent_after H5. }
  assert (TotalPrice ∈ cols) as Hp.
  { destruct H5 as [[[Hp|[=]]|[=]]|[=]].
    by apply elem_of_add_label in Hp as [?|[=]]. }
  present Hp.
  cbn [rows]. rewrite <- !list_fmap_compose.
  assert (∀ P : option Timestamp.t → Prop,
            (∀ r, P (order_datetime (set_order_datetime (parsed r) (h r)))
                  ↔ P (order_timestamp r))) as Hcell.
  { intros P r. by rewrite <- Hparsed. }
  destruct (decide (q = number ∧ u = number ∧ p = number))
    as [(-> & -> & ->)|Hnum].
  - rewrite bool_decide_eq_true_2 by done.
    fold data_model in dt. subst dt.
    rewrite series_mul_fmap. cbn [mbind result_bind mret result_ret].
    rewrite setitem_fmap. unfold transformed_frame.
    cbn [columns rows label revenue_col]. do 2 f_equal.
    erewrite list_filter_iff; [apply list_fmap_ext|].
    + intros _ r _. unfold compose. rewrite Hparsed, (Hfill Hq Hp).
      destruct r as [? [d|] [t|] ? ? ? [q|] ? [p|] ? ? ? ? ?]; reflexivity.
    + intros r. apply (Hcell is_Some).
  - rewrite (bool_decide_eq_false_2 (_ ∧ _)) by done.
    unfold series_mul. cbn [of_quantity of_unit_price of_total_price dt].
    rewrite (bool_decide_eq_false_2 (_ ∧ _)) by done.
    rewrite (bool_decide_ext _
               (Exists (λ r, is_Some (order_timestamp r)
                             ∧ text_times_text dt r = true) rows0)).
    + by case_bool_decide.
    + rewrite kept_texts. rewrite !Exists_exists.
      split; intros (r & Hr & Hts & Htt); exists r;
        (split; [done|]); (split; [|done]); by rewrite Hparsed in *.
Qed.

(** The checks on a frame read with the dtypes of the data model: the
    [KeyError] of the first column, in the order the function reads them,
    that the frame does not have. *)
Lemma transform_check_Typed df :
  transform_check (Typed df) =
    match List.find (λ c, negb (bool_decide (c ∈ columns df)))
            transform_columns with
    | Some c => Raise (KeyError (column_name c))
    | None => Ok tt
    end.
Proof.
  unfold transform_check, transform_columns.
  cbn [Typed frame inferred data_model of_order_date of_order_time
         of_quantity of_unit_price of_total_price List.find].
  cbv zeta.
  repeat
    match goal with
    | |- context [bool_decide (?c ∉ columns df)] =>
        destruct (decide (c ∈ columns df)) as [Hc|Hc];
        [ rewrite (bool_decide_eq_false_2 (c ∉ columns df))
            by (intros Hn; exact (Hn Hc));
          rewrite (bool_decide_eq_true_2 (c ∈ columns df) Hc)
        | rewrite (bool_decide_eq_true_2 (c ∉ columns df) Hc);
          rewrite (bool_decide_eq_false_2 (c ∈ columns df) Hc) ];
        cbn [negb]; try reflexivity; clear Hc
    end;
    rewrite ?(bool_decide_eq_false_2 (object = number)) by done.
Qed.

(** The checks pass on frames read with the dtypes of the data model that
    have the five columns, and on no other. *)
Lemma transform_check_Ok csv :
  transform_check csv = Ok tt
  ↔ inferred csv = data_model ∧ transform_columns ⊆ columns (frame csv).
Proof.
  split.
  - destruct csv as [df [d t q u p]]. unfold transform_check.
    cbn [frame inferred of_order_date of_order_time of_quantity
           of_unit_price of_total_price]. cbv zeta.
    repeat case_bool_decide; try done.
    intros _. destruct d; [|done]. destruct t; [|done].
    split; [by destruct_and!; subst|].
    intros c Hc. unfold transform_columns in Hc.
    repeat (apply elem_of_cons in Hc as [->|Hc]; [done|]).
    by apply elem_of_nil in Hc.
  - destruct csv as [df dt]. cbn [frame inferred]. intros [-> Hcols].
    change (MkCsv df data_model) with (Typed df).
    rewrite transform_check_Typed.
    by rewrite (proj2 (find_missing_None _ _) Hcols).
Qed.

(** The frame [process_pizza_data] returns on a file that decodes, is read
    with the dtypes of the data model and has the columns the function
    reads. *)
Lemma process_pizza_data_Ok file_content text df0 :
  decode file_content = Ok text →
  read_csv text = Ok (Typed df0) →
  transform_columns ⊆ columns df0 →
  process_pizza_data file_content =
    Ok (Frame (transformed_columns (columns df0))
          (transform_row
             <$> filter (λ r, is_Some (order_timestamp r)) (rows df0))).
Proof.
  intros Hdec Hread Hcols. rewrite process_pizza_data_cases.
  unfold transform. rewrite Hdec. cbn [mbind result_bind]. rewrite Hread.
  cbn [mbind result_bind].
  by rewrite (proj2 (transform_check_Ok (Typed df0))).
Qed.


(** A frame returned by [process_pizza_data] comes from a file that
    decodes, is read with the dtypes of the data model and has the columns
    the function reads. *)
Lemma process_pizza_data_Ok_inv file_content out :
  process_pizza_data file_content = Ok out →
  ∃ text df, decode file_content = Ok text ∧ read_csv text = Ok (Typed df)
    ∧ transform_columns ⊆ columns df
    ∧ out = transformed_frame df.
Proof.
  rewrite process_pizza_data_cases. unfold transform.
  destruct (decode file_content) as [text| |]; [|done..].
  cbn [mbind result_bind].
  destruct (read_csv text) as [csv| |] eqn:Hread; [|done..].
  cbn [mbind result_bind].
  destruct (transform_check csv) as [[]| |] eqn:Hcheck; [|done..].
  cbn [mbind result_bind mret result_ret]. intros [= <-].
  apply transform_check_Ok in Hcheck as [Hdt Hcols].
  destruct csv as [df dt]. cbn [frame inferred] in *. subst dt.
  by exists text, df.
Qed.


End Transformation.

(** ** Sums and groups *)

Lemma series_sum_cons c s : series_sum (c :: s) = add_cell c (series_sum s).
Proof. done. Qed.

Lemma add_cell_plus c x y : (add_cell c x + y = add_cell c (x + y))%Qc.
Proof. destruct c; simpl; [ring|done]. Qed.

Lemma add_cell_default c x : add_cell c x = (default 0 c + x)%Qc.
Proof. destruct c; simpl; [done|ring]. Qed.

Lemma series_sum_app s1 s2 :
  series_sum (s1 ++ s2) = (series_sum s1 + series_sum s2)%Qc.
Proof.
  induction s1 as [|c s1 IH]; simpl.
  - ring.
  - fold (series_sum (s1 ++ s2)) (series_sum s1).
    rewrite IH. fold (add_cell c (series_sum s1 + series_sum s2)).
    fold (add_cell c (series_sum s1)). by rewrite add_cell_plus.
Qed.

Section Groups.

Context `{EqDecision K}.

Lemma pair_sum_cons ko v (kvs : list (option K * option Qc)) k :
  pair_sum ((ko, v) :: kvs) k =
    if decide (ko = Some k) then add_cell v (pair_sum kvs k)
    else pair_sum kvs k.
Proof.
  unfold pair_sum. rewrite filter_cons. simpl.
  by destruct (decide (ko = Some k)).
Qed.

(** Adding a value under key [k0] adds it to the total over any
    duplicate-free list of keys that has [k0]. *)
Lemma Qc_sum_add_key (f : K → Qc) (k0 : K) (v : option Qc) (ks : list K) :
  NoDup ks →
  Qc_sum ((λ k, if decide (Some k0 = Some k) then add_cell v (f k) else f k)
            <$> ks)
  = if decide (k0 ∈ ks) then add_cell v (Qc_sum (f <$> ks))
    else Qc_sum (f <$> ks).
Proof.
  induction 1 as [|k ks Hk Hnd IH]; [done|].
  rewrite !fmap_cons. simpl. fold (Qc_sum (f <$> ks)).
  fold (Qc_sum ((λ k, if decide (Some k0 = Some k) then add_cell v (f k)
                      else f k) <$> ks)).
  rewrite IH. destruct (decide (Some k0 = Some k)) as [[= ->]|Hne].
  - rewrite (decide_True (P := k ∈ k :: ks)) by (by left).
    rewrite (decide_False (P := k ∈ ks)) by done.
    by rewrite add_cell_plus.
  - destruct (decide (k0 ∈ ks)) as [Hin|Hin].
    + rewrite (decide_True (P := k0 ∈ k :: ks)) by (by right).
      rewrite !add_cell_default. ring.
    + rewrite (decide_False (P := k0 ∈ k :: ks)); [done|].
      intros [->|?]%elem_of_cons; [by destruct Hne|done].
Qed.

(** The group sums add up to the sum over the positions that have a
    key. *)
Lemma pair_sum_total (kvs : list (option K * option Qc)) (ks : list K) :
  NoDup ks →
  (∀ k v, (Some k, v) ∈ kvs → k ∈ ks) →
  Qc_sum (pair_sum kvs <$> ks)
  = series_sum (snd <$> filter (λ kv, is_Some kv.1) kvs).
Proof.
  intros Hnd. induction kvs as [|[ko v] kvs IH]; intros Hks.
  - clear Hnd Hks. induction ks as [|k ks IHks]; [done|].
    rewrite fmap_cons. simpl. fold (Qc_sum (pair_sum [] <$> ks)).
    rewrite IHks. unfold pair_sum. simpl. ring.
  - rewrite filter_cons. simpl.
    assert (∀ k v, (Some k, v) ∈ kvs → k ∈ ks) as Hks'
      by (intros k' v' ?; apply (Hks k' v'); by right).
    specialize (IH Hks').
    assert (pair_sum ((ko, v) :: kvs) <$> ks
            = (λ k, if decide (ko = Some k)
                    then add_cell v (pair_sum kvs k) else pair_sum kvs k)
                <$> ks) as ->
      by (apply list_fmap_ext; intros; apply pair_sum_cons).
    destruct ko as [k0|].
    + rewrite decide_True by done. rewrite fmap_cons, series_sum_cons.
      simpl. rewrite (Qc_sum_add_key (pair_sum kvs) k0 v ks Hnd).
      rewrite decide_True by (apply (Hks k0 v); by left). by rewrite IH.
    + rewrite decide_False by (by intros [? [=]]).
      by rewrite <- IH.
Qed.

Lemma group_keys_Permutation leb (keys : list (option K)) :
  group_keys leb keys ≡ₚ remove_dups (omap id keys).
Proof. apply merge_sort_Permutation. Qed.

Lemma NoDup_group_keys leb (keys : list (option K)) :
  NoDup (group_keys leb keys).
Proof. rewrite group_keys_Permutation. apply NoDup_remove_dups. Qed.

Lemma elem_of_group_keys leb (keys : list (option K)) k :
  k ∈ group_keys leb keys ↔ Some k ∈ keys.
Proof.
  rewrite group_keys_Permutation, elem_of_remove_dups, list_elem_of_omap.
  split; [intros (? & ? & ?); by simplify_eq/=|]. intros. by exists (Some k).
Qed.

(** The sum of a grouped table is the sum over the rows with a key. *)
Lemma groupby_sum_total leb (keys : list (option K)) values :
  Qc_sum (snd <$> groupby_sum leb keys values)
  = series_sum (snd <$> filter (λ kv, is_Some kv.1) (zip keys values)).
Proof.
  unfold groupby_sum. rewrite <- list_fmap_compose.
  rewrite <- (pair_sum_total _ (group_keys leb keys)).
  - done.
  - apply NoDup_group_keys.
  - intros k v Hkv. apply elem_of_group_keys.
    apply elem_of_zip_l in Hkv. done.
Qed.

(** A group sum read off the rows. *)
Lemma group_sum_rows {X} (key : X → option K) (val : X → option Qc)
  (l : list X) k :
  group_sum (key <$> l) (val <$> l) k
  = series_sum (val <$> filter (λ x, key x = Some k) l).
Proof.
  unfold group_sum.
  rewrite zip_with_fmap_l, zip_with_fmap_r, zip_with_diag.
  rewrite filter_fmap, <- list_fmap_compose. done.
Qed.

End Groups.

(** ** Truncation and rounding *)

Lemma filter_all {A} (P : A → Prop) `{∀ x, Decision (P x)} (l : list A) :
  Forall P l → filter P l = l.
Proof.
  induction 1 as [|x l Hx Hl IH]; [done|].
  by rewrite filter_cons, decide_True, IH.
Qed.

Lemma StronglySorted_take {A} (R : relation A) n (l : list A) :
  StronglySorted R l → StronglySorted R (take n l).
Proof.
  intros Hl. rewrite <- (take_drop n l) in Hl.
  by apply StronglySorted_app_1_l in Hl.
Qed.

Lemma head_n_nonneg {A} (n : Z) (l : list A) :
  0 ≤ n → head_n n l = take (Z.to_nat n) l.
Proof. intros Hn. unfold head_n. by rewrite (proj2 (Z.leb_le 0 n) Hn). Qed.

Lemma length_head_n_nonneg {A} (n : Z) (l : list A) :
  0 ≤ n → Z.of_nat (length (head_n n l)) ≤ n.
Proof. intros Hn. rewrite head_n_nonneg, length_take by done. lia. Qed.

Lemma round2_0 : round2 0 = 0%Qc.
Proof. by apply Qc_is_canon. Qed.

(** [int] is the floor of a number that is not negative and the ceiling of
    one that is not positive. *)
Lemma int_nonneg (x : Qc) : (0 ≤ x)%Qc → int x = Qfloor x.
Proof.
  destruct x as [[n d] Hc]. unfold Qcle, Qle, int, Qfloor. simpl.
  intros Hn. apply Z.quot_div_nonneg; lia.
Qed.

Lemma int_nonpos (x : Qc) : (x ≤ 0)%Qc → int x = Qceiling x.
Proof.
  destruct x as [[n d] Hc]. unfold Qcle, Qle, int, Qceiling, Qfloor. simpl.
  intros Hn. rewrite <- (Z.opp_involutive n) at 1.
  rewrite Z.quot_opp_l by done. f_equal.
  apply Z.quot_div_nonneg; lia.
Qed.

Lemma int_Qc_of_Z (z : Z) : int (Qc_of_Z z) = z.
Proof. unfold int. simpl. apply Z.quot_1_r. Qed.

(** ** The metrics, read off the rows *)

Section Aggregation.

Context `{Pandas}.

(** On a frame that has the columns it reads, [calculate_metrics]
    returns, and returns the record above. *)
Lemma calculate_metrics_Ok df :
  metric_columns ⊆ columns df → calculate_metrics df = Ok (metrics_of df).
Proof.
  intros Hcols.
  assert (∀ c, c ∈ metric_columns → c ∈ columns df) as Hin
    by (intros c Hc; by apply Hcols).
  unfold calculate_metrics.
  repeat (rewrite getitem_Ok by (apply Hin; elem_of_items);
          cbn [mbind result_bind cell revenue_col order_id_col
                 order_datetime_col pizza_name_col quantity_col
                 pizza_category_col pizza_size_col hour_col]).
  reflexivity.
Qed.

(** Without one of those columns it raises [KeyError]. *)
Lemma calculate_metrics_KeyError df :
  ¬ metric_columns ⊆ columns df →
  ∃ c, c ∈ metric_columns ∧
       calculate_metrics df = Raise (KeyError (column_name c)).
Proof.
  intros Hcols. unfold calculate_metrics.
  repeat
    match goal with
    | |- context [getitem df ?c] =>
        destruct (decide (label c ∈ columns df));
        [ rewrite !(getitem_Ok df c) by done; cbn [mbind result_bind]
        | exists (label c); split; [elem_of_items|];
          rewrite !(getitem_Raise df c) by done; done ]
    end.
  destruct Hcols. intros c Hc. unfold metric_columns in Hc.
  repeat (apply elem_of_cons in Hc as [->|Hc]; [done|]).
  by apply elem_of_nil in Hc.
Qed.

Lemma pizza_table_names df :
  pp_pizza_name <$> pizza_table df
  = group_keys String.leb (pizza_name <$> rows df).
Proof.
  unfold pizza_table. rewrite <- list_fmap_compose. apply list_fmap_id.
Qed.

Lemma pizza_table_entry df e :
  e ∈ pizza_table df →
  Some (pp_pizza_name e) ∈ pizza_name <$> rows df
  ∧ pp_quantity e
    = series_sum (quantity <$> rows_of_pizza df (pp_pizza_name e))
  ∧ pp_revenue e
    = series_sum (revenue <$> rows_of_pizza df (pp_pizza_name e)).
Proof.
  unfold pizza_table. intros (k & -> & Hk)%list_elem_of_fmap. simpl.
  apply elem_of_group_keys in Hk. by rewrite !group_sum_rows.
Qed.

End Aggregation.

(** ** The concrete instance meets the sort contract *)

Lemma insert_desc_Permutation x l : Fixture.insert_desc x l ≡ₚ x :: l.
Proof.
  induction l as [|y l IH]; [done|]. simpl.
  destruct (decide _); [done|]. rewrite IH. apply perm_swap.
Qed.

Lemma insert_desc_sorted x l :
  StronglySorted descending l →
  StronglySorted descending (Fixture.insert_desc x l).
Proof.
  induction 1 as [|y l Hl IH Hy]; simpl.
  - repeat constructor.
  - destruct (decide _) as [Hle|Hgt].
    + constructor; [by constructor|]. constructor; [done|].
      apply Forall_forall. intros z Hz.
      rewrite Forall_forall in Hy. specialize (Hy z Hz).
      unfold descending in *. by etrans.
    + constructor; [done|]. rewrite insert_desc_Permutation.
      constructor; [|done]. unfold descending.
      apply Qclt_le_weak. by apply Qcnot_le_lt.
Qed.

Lemma fixture_sort_contract : @sort_contract Fixture.pandas.
Proof.
  intros l. unfold sort_values, Fixture.pandas, Fixture.sort_stable.
  induction l as [|x l [IHp IHs]]; simpl.
  - split; [done|constructor].
  - split; [by rewrite insert_desc_Permutation, IHp|].
    by apply insert_desc_sorted.
Qed.

(** ** The metrics, computed on the heap *)

Section Heap.

Context `{Pandas}.

Import Objects.

Lemma run_bind_step {A B} (m : run A) (f : A → run B) h a h' :
  m h = (Ok a, h') → (m ≫= f) h = f a h'.
Proof. intros Hm. unfold mbind, run_bind. by rewrite Hm. Qed.

Lemma read_Ok {A} (h : list object) l df text (c : Series A) :
  h !! l = Some (Lines df text) →
  label c ∈ columns df →
  read l c h = (Ok (cell c <$> rows df), h).
Proof.
  intros Hl Hc. unfold read, lines, mbind, run_bind, lift. rewrite Hl.
  cbn [fst]. by rewrite getitem_Ok.
Qed.

Lemma dt_Ok (h : list object) l df :
  h !! l = Some (Lines df None) →
  OrderDatetime ∈ columns df →
  dt l h = (Ok (order_datetime <$> rows df), h).
Proof.
  intros Hl Hc. unfold dt, lines, mbind, run_bind, lift. rewrite Hl.
  cbn [fst snd]. by rewrite getitem_Ok.
Qed.

(** On a frame whose [order_datetime] has been replaced by text the
    accessor raises, and so does [calculate_metrics]. *)
Lemma dt_on_text (h : list object) l df text :
  h !! l = Some (Lines df (Some text)) →
  OrderDatetime ∈ columns df →
  dt l h
  = (Raise (AttributeError
              "Can only use .dt accessor with datetimelike values"), h).
Proof.
  intros Hl Hc. unfold dt, lines, mbind, run_bind, lift. rewrite Hl.
  cbn [fst snd]. by rewrite getitem_Ok.
Qed.

Lemma copy_Ok (h : list object) l df text :
  h !! l = Some (Lines df text) →
  copy l h = (Ok (length h), h ++ [Lines df text]).
Proof.
  intros Hl. unfold copy, lines, alloc, mbind, run_bind. by rewrite Hl.
Qed.

Lemma write_text_Ok (h : list object) l df old text :
  h !! l = Some (Lines df old) →
  OrderDatetime ∈ columns df →
  write_text l text h = (Ok tt, <[l := Lines df (Some text)]> h).
Proof.
  intros Hl Hc. unfold write_text, lines, modify, mbind, run_bind.
  rewrite Hl. cbn [fst]. unfold add_label.
  rewrite bool_decide_eq_true_2 by done. by destruct df.
Qed.

Lemma preview_Ok (h : list object) l df :
  h !! l = Some (Lines df None) →
  preview l h = (Ok (serializable_row df <$> head_n 10 (rows df)), h).
Proof.
  intros Hl. unfold preview, lines, mbind, run_bind, mret, run_ret.
  by rewrite Hl.
Qed.

Lemma mapM_inr {A B} (f : A → B) (l : list A) :
  mapM (λ k : date + B, match k with inr s => Some s | inl _ => None end)
    ((inr ∘ f) <$> l)
  = Some (f <$> l).
Proof.
  apply mapM_Some, Forall2_fmap_l, Forall2_fmap_r, Forall_Forall2_diag.
  by apply Forall_forall.
Qed.

Lemma set_columns_Ok (h : list object) l old keys revenues label :
  h !! l = Some (Table old keys revenues) →
  set_columns l label h = (Ok tt, <[l := Table label keys revenues]> h).
Proof. intros Hl. unfold set_columns. by rewrite Hl. Qed.

Lemma astype_str_Ok (h : list object) l label (keys : list date) revenues :
  h !! l = Some (Table label (inl <$> keys) revenues) →
  astype_str l label h
  = (Ok tt, <[l := Table label (inr ∘ date_str <$> keys) revenues]> h).
Proof.
  intros Hl. unfold astype_str. rewrite Hl, decide_True by done.
  by rewrite <- list_fmap_compose.
Qed.

Lemma to_dict_Ok (h : list object) l (keys : list string) revenues :
  h !! l = Some (Table "date" (inr <$> keys) revenues) →
  to_dict l h = (Ok (zip keys revenues), h).
Proof.
  intros Hl. unfold to_dict. rewrite Hl.
  rewrite <- (list_fmap_id keys) at 1. rewrite <- list_fmap_compose.
  rewrite (mapM_inr id), list_fmap_id. by rewrite decide_True.
Qed.

(** The steps of [Objects.calculate_metrics] on a frame that holds
    timestamps: the record is the one of [calculate_metrics], and the heap
    has two objects more, the copy with its column of text and the table
    of daily sales; nothing that was there is written to. *)
Lemma calculate_metrics_on_heap (h : list object) (l : nat) df :
  h !! l = Some (Lines df None) →
  metric_columns ⊆ columns df →
  Objects.calculate_metrics l h
  = (Ok (metrics_of df),
     h ++ [Lines df (Some (dt_strftime (order_datetime <$> rows df)));
           Table "date"
             (inr ∘ date_str
                <$> (groupby_sum date_leb
                       (dt_date (order_datetime <$> rows df))
                       (revenue <$> rows df)).*1)
             (groupby_sum date_leb (dt_date (order_datetime <$> rows df))
                (revenue <$> rows df)).*2]).
Proof.
  intros Hl Hcols.
  assert (∀ c, c ∈ metric_columns → c ∈ columns df) as Hin
    by (intros c Hc; by apply Hcols).
  assert (l < length h)%nat as Hlen by (by eapply lookup_lt_Some).
  unfold Objects.calculate_metrics.
  erewrite run_bind_step;
    [|apply (read_Ok h l df None); [done|apply Hin; elem_of_items]].
  erewrite run_bind_step;
    [|apply (read_Ok h l df None); [done|apply Hin; elem_of_items]].
  erewrite run_bind_step; [|by apply copy_Ok].
  set (h1 := h ++ [Lines df None]).
  assert (h1 !! length h = Some (Lines df None)) as Hcopy
    by (subst h1; by rewrite lookup_app_r, Nat.sub_diag by lia).
  erewrite run_bind_step;
    [|apply (dt_Ok h1 _ df); [done|apply Hin; elem_of_items]].
  erewrite run_bind_step;
    [|apply (write_text_Ok h1 _ df None); [done|apply Hin; elem_of_items]].
  set (text := dt_strftime _).
  set (h2 := <[length h := Lines df (Some text)]> h1).
  assert (h2 = h ++ [Lines df (Some text)]) as Hh2.
  { subst h2 h1. rewrite insert_app_r_alt, Nat.sub_diag by lia. done. }
  assert (h2 !! l = Some (Lines df None)) as Hl2
    by (by rewrite Hh2, lookup_app_l).
  do 7 (erewrite run_bind_step;
          [|apply (read_Ok h2 l df None); [done|apply Hin; elem_of_items]]).
  erewrite run_bind_step;
    [|apply (dt_Ok h2 l df); [done|apply Hin; elem_of_items]].
  erewrite run_bind_step;
    [|apply (read_Ok h2 l df None); [done|apply Hin; elem_of_items]].
  set (table := groupby_sum date_leb _ _).
  unfold reset_index.
  erewrite run_bind_step; [|reflexivity].
  set (h3 := h2 ++ [Table "order_datetime" (inl <$> table.*1) table.*2]).
  assert (length h2 = S (length h)) as Hlen2
    by (rewrite Hh2, length_app; cbn; lia).
  assert (h3 !! length h2 = Some (Table "order_datetime" (inl <$> table.*1)
                                    table.*2)) as Htable
    by (subst h3; by rewrite lookup_app_r, Nat.sub_diag by lia).
  erewrite run_bind_step; [|by eapply set_columns_Ok].
  set (h4 := <[length h2 := _]> h3).
  assert (h4 = h2 ++ [Table "date" (inl <$> table.*1) table.*2]) as Hh4.
  { subst h4 h3. by rewrite insert_app_r_alt, Nat.sub_diag by lia. }
  assert (h4 !! length h2 = Some (Table "date" (inl <$> table.*1) table.*2))
    as Htable4 by (by rewrite Hh4, lookup_app_r, Nat.sub_diag by lia).
  erewrite run_bind_step; [|by eapply astype_str_Ok].
  set (h5 := <[length h2 := _]> h4).
  assert (h5 = h2 ++ [Table "date" (inr ∘ date_str <$> table.*1) table.*2])
    as Hh5.
  { subst h5. by rewrite Hh4, insert_app_r_alt, Nat.sub_diag by lia. }
  assert (h5 !! l = Some (Lines df None)) as Hl5.
  { rewrite Hh5, lookup_app_l by lia. done. }
  do 2 (erewrite run_bind_step;
          [|apply (read_Ok h5 l df None); [done|apply Hin; elem_of_items]]).
  erewrite run_bind_step; [|by apply preview_Ok].
  erewrite run_bind_step;
    [|apply (read_Ok h5 l df None); [done|apply Hin; elem_of_items]].
  erewrite run_bind_step.
  2:{ apply (to_dict_Ok h5 _ (date_str <$> table.*1) table.*2).
      rewrite Hh5, lookup_app_r, Nat.sub_diag by lia.
      by rewrite list_fmap_compose. }
  unfold mret, run_ret. rewrite Hh5, Hh2, <- app_assoc. cbn [app].
  f_equal. f_equal. unfold metrics_of. f_equal.
  transitivity ((λ kv : date * Qc, (date_str kv.1, kv.2)) <$> table);
    [|done].
  clearbody table. clear.
  induction table as [|[k v] table IH]; [done|].
  rewrite !fmap_cons. cbn [zip_with fst snd]. by f_equal.
Qed.

End Heap.

(** * The claims *)

Section Claims.

Context `{Pandas}.

(** C1, as amended: on a file that decodes, is read with the dtypes of
    the data model and has the columns the transformation reads,
    [process_pizza_data] returns, whatever the rows hold; the rows of its
    frame are the input rows whose [order_date + ' ' + order_time] parses
    under the format, in input order, each with its order record unchanged
    and with the parsed timestamp as a non-null [order_datetime]. *)
Theorem process_pizza_data_keeps_parsed_rows file_content text df :
  decode file_content = Ok text →
  read_csv text = Ok (Typed df) →
  transform_columns ⊆ columns df →
  ∃ out, process_pizza_data file_content = Ok out
    ∧ order_record <$> rows out
      = order_record <$> filter (λ r, is_Some (order_timestamp r)) (rows df)
    ∧ Forall2 (λ r' r, order_datetime r' = order_timestamp r) (rows out)
        (filter (λ r, is_Some (order_timestamp r)) (rows df))
    ∧ Forall (λ r', is_Some (order_datetime r')) (rows out).
Proof.
  intros Hdec Hread Hcols. eexists. split.
  { by apply (process_pizza_data_Ok _ text df). }
  cbn [rows]. split; [|split].
  - rewrite <- list_fmap_compose. apply list_fmap_ext. intros _ r _.
    by destruct r as [? ? ? ? ? ? [q|] ? [p|] ? ? ? ? ?].
  - apply Forall2_fmap_l, Forall_Forall2_diag, Forall_forall. intros r _.
    cbn. apply order_timestamp_fill.
  - apply Forall_fmap, Forall_forall. intros r Hr%list_elem_of_In%list_elem_of_filter.
    cbn. rewrite order_timestamp_fill. by destruct Hr.
Qed.


(** C6: on a file read with the dtypes of the data model that has the
    columns the transformation reads, [process_pizza_data] returns; and in
    every frame it returns, every kept row has the quantity of its input
    row, or 1 where that was missing, the total price of its input row, or
    that row's unit price where it was missing, and as revenue the product
    of these two cells. *)
Theorem process_pizza_data_fills_then_multiplies file_content text csv :
  decode file_content = Ok text →
  read_csv text = Ok csv →
  transform_columns ⊆ columns (frame csv) →
  (inferred csv = data_model →
   ∃ out, process_pizza_data file_content = Ok out)
  ∧ ∀ out, process_pizza_data file_content = Ok out →
      Forall2
        (λ r' r,
           quantity r' = Some (default 1%Qc (quantity r))
           ∧ total_price r'
             = (if total_price r is Some _ then total_price r
                else unit_price r)
           ∧ revenue r'
             = (q ← quantity r'; p ← total_price r'; Some (q * p)%Qc))
        (rows out)
        (filter (λ r, is_Some (order_timestamp r)) (rows (frame csv))).
Proof.
  intros Hdec Hread Hcols. split.
  - intros Hdt. eexists. apply (process_pizza_data_Ok _ text (frame csv)).
    + done.
    + rewrite Hread. destruct csv as [df dt]. cbn in Hdt. by subst dt.
    + done.
  - intros out Hout.
    destruct (process_pizza_data_Ok_inv _ _ Hout)
      as (text' & df' & Hdec' & Hread' & _ & ->).
    assert (text' = text) as -> by congruence.
    assert (csv = Typed df') as -> by congruence.
    cbn [rows frame Typed]. unfold transformed_frame. cbn [rows].
    apply Forall2_fmap_l, Forall_Forall2_diag, Forall_forall.
    intros r _. by destruct r as [? ? ? ? ? ? [q|] ? [p|] ? ? ? ? ?].
Qed.

(** C3: on a frame with the columns [calculate_metrics] reads, the call
    returns; [avg_order_value] is the revenue sum divided by the number of
    distinct order ids, rounded to 2 places, when that number is positive,
    and 0 when it is 0; a frame without rows gives zero scalars and empty
    collections. *)
Theorem avg_order_value_rounded_quotient df :
  sort_contract →
  metric_columns ⊆ columns df →
  ∃ m, calculate_metrics df = Ok m
    ∧ total_orders m = nunique (order_id <$> rows df)
    ∧ total_revenue m = round2 (revenue_sum df)
    ∧ (0 < total_orders m →
       avg_order_value m
       = round2 (revenue_sum df / Qc_of_Z (total_orders m))%Qc)
    ∧ (total_orders m = 0 → avg_order_value m = 0%Qc)
    ∧ 0 ≤ total_orders m
    ∧ (rows df = [] → m = MkMetrics 0 0 0 0 [] [] [] [] [] []).
Proof.
  intros Hsort Hcols. exists (metrics_of df).
  split; [by apply calculate_metrics_Ok|].
  unfold metrics_of. cbn [total_orders total_revenue avg_order_value].
  split; [done|]. split; [done|]. split; [|split; [|split]].
  - intros Hn. by rewrite (proj2 (Z.ltb_lt _ _) Hn).
  - intros ->. cbn. apply round2_0.
  - unfold nunique. lia.
  - destruct df as [cols rs]. cbn [rows]. intros ->.
    destruct (Hsort []) as [Hperm _]. apply Permutation_nil_r in Hperm.
    change (pizza_table (Frame cols [])) with (@nil popular_pizza).
    rewrite Hperm. unfold revenue_sum, quantity_sum, nunique. cbn.
    change (0 <? Z.of_nat 0) with false. cbn iota.
    by rewrite !round2_0.
Qed.

(** C4, as amended: [popular_pizzas] has at most 10 entries, one per pizza
    name, each with the summed quantity and the summed revenue of the rows
    of that name, in descending order of summed quantity; they are the
    first 10 entries of [sort_values] applied to the grouped table, whose
    entries come in ascending order of the names. *)
Theorem popular_pizzas_top_ten_descending df :
  sort_contract →
  metric_columns ⊆ columns df →
  ∃ m, calculate_metrics df = Ok m
    ∧ popular_pizzas m = take 10 (sort_values (pizza_table df))
    ∧ (length (popular_pizzas m) ≤ 10)%nat
    ∧ StronglySorted descending (popular_pizzas m)
    ∧ NoDup (pp_pizza_name <$> popular_pizzas m)
    ∧ Forall
        (λ e, Some (pp_pizza_name e) ∈ pizza_name <$> rows df
              ∧ pp_quantity e
                = series_sum (quantity <$> rows_of_pizza df (pp_pizza_name e))
              ∧ pp_revenue e
                = series_sum (revenue <$> rows_of_pizza df (pp_pizza_name e)))
        (popular_pizzas m)
    ∧ Sorted (λ a b : string, String.leb a b)
        (pp_pizza_name <$> pizza_table df).
Proof.
  intros Hsort Hcols. exists (metrics_of df).
  split; [by apply calculate_metrics_Ok|].
  unfold metrics_of. cbn [popular_pizzas].
  rewrite head_n_nonneg by done. change (Z.to_nat 10) with 10%nat.
  destruct (Hsort (pizza_table df)) as [Hperm Hsorted].
  split; [done|]. split; [|split; [|split; [|split]]].
  - rewrite length_take. lia.
  - by apply StronglySorted_take.
  - assert (NoDup (pp_pizza_name <$> sort_values (pizza_table df))) as Hnd
      by (rewrite Hperm, pizza_table_names; apply NoDup_group_keys).
    eapply sublist_NoDup; [exact Hnd|]. apply fmap_sublist, sublist_take.
  - apply Forall_forall. intros e He%list_elem_of_In.
    apply pizza_table_entry. rewrite <- Hperm.
    eapply elem_of_sublist; [exact He|apply sublist_take].
  - rewrite pizza_table_names. apply Sorted_merge_sort.
    intros a b.
    destruct (String.leb_total a b) as [Hab|Hab]; [left|right];
      by rewrite Hab.
Qed.

(** C5: on a transformed frame, where every row has a timestamp, the
    revenues of [daily_sales] add up to the revenue sum, so that rounded
    to 2 places they give [total_revenue]. *)
Theorem daily_sales_add_up_to_total_revenue df :
  metric_columns ⊆ columns df →
  Forall (λ r, is_Some (order_datetime r)) (rows df) →
  ∃ m, calculate_metrics df = Ok m
    ∧ Qc_sum (snd <$> daily_sales m) = revenue_sum df
    ∧ round2 (Qc_sum (snd <$> daily_sales m)) = total_revenue m.
Proof.
  intros Hcols Hdt. exists (metrics_of df).
  split; [by apply calculate_metrics_Ok|].
  unfold metrics_of. cbn [daily_sales total_revenue].
  assert (Qc_sum
            (((λ kv : date * Qc, (date_str kv.1, kv.2))
                <$> groupby_sum date_leb (dt_date (order_datetime <$> rows df))
                      (revenue <$> rows df)).*2)
          = revenue_sum df) as ->; [|done].
  rewrite <- list_fmap_compose.
  change (snd ∘ _) with (snd (A := date) (B := Qc)).
  rewrite groupby_sum_total. unfold dt_date, revenue_sum.
  rewrite <- list_fmap_compose.
  rewrite zip_with_fmap_l, zip_with_fmap_r, zip_with_diag.
  rewrite filter_fmap, <- list_fmap_compose. f_equal.
  rewrite filter_all; [done|].
  eapply Forall_impl; [|exact Hdt]. intros r [ts Hts]. cbn. by rewrite Hts.
Qed.

(** C7, as amended: [total_items_sold] is the sum of the quantity cells
    truncated toward zero to an integer: the floor of a sum that is not
    negative, the ceiling of one that is not positive, and the sum itself
    when that is an integer. *)
Theorem total_items_sold_truncated_sum df :
  metric_columns ⊆ columns df →
  ∃ m, calculate_metrics df = Ok m
    ∧ total_items_sold m = int (quantity_sum df)
    ∧ ((0 ≤ quantity_sum df)%Qc →
       total_items_sold m = Qfloor (quantity_sum df))
    ∧ ((quantity_sum df ≤ 0)%Qc →
       total_items_sold m = Qceiling (quantity_sum df))
    ∧ (∀ z, quantity_sum df = Qc_of_Z z → total_items_sold m = z).
Proof.
  intros Hcols. exists (metrics_of df).
  split; [by apply calculate_metrics_Ok|].
  unfold metrics_of. cbn [total_items_sold].
  split; [done|]. split; [apply int_nonneg|]. split; [apply int_nonpos|].
  intros z ->. apply int_Qc_of_Z.
Qed.

(** C8: [calculate_metrics] is given a reference to the frame.  On a
    frame with the columns it reads, two calls one after the other both
    return, with the same record, which is the record of the frame: the
    first call writes to its own copy and to the table it has made, and
    leaves the object behind the reference, and every other object of the
    heap, as they were. *)
Theorem calculate_metrics_twice_identical (h : list Objects.object) l df :
  h !! l = Some (Objects.Lines df None) →
  metric_columns ⊆ columns df →
  ∃ m h1 h2,
    Objects.calculate_metrics l h = (Ok m, h1)
    ∧ Objects.calculate_metrics l h1 = (Ok m, h2)
    ∧ Objects.aggregate_twice l h = (Ok (m, m), h2)
    ∧ calculate_metrics df = Ok m
    ∧ h1 !! l = Some (Objects.Lines df None)
    ∧ ∀ l' o, h !! l' = Some o → h1 !! l' = Some o ∧ h2 !! l' = Some o.
Proof.
  intros Hl Hcols.
  pose proof (calculate_metrics_on_heap h l df Hl Hcols) as Hfirst.
  set (h1 := h ++ _) in Hfirst.
  assert (∀ l' o, h !! l' = Some o → h1 !! l' = Some o) as Hkept.
  { intros l' o Hl'. subst h1. rewrite lookup_app_l; [done|].
    by eapply lookup_lt_Some. }
  pose proof (calculate_metrics_on_heap h1 l df (Hkept _ _ Hl) Hcols)
    as Hsecond.
  set (h2 := h1 ++ _) in Hsecond.
  exists (metrics_of df), h1, h2.
  split; [done|]. split; [done|]. split; [|split; [|split]].
  - unfold Objects.aggregate_twice.
    erewrite run_bind_step by exact Hfirst.
    by erewrite run_bind_step by exact Hsecond.
  - by apply calculate_metrics_Ok.
  - by apply Hkept.
  - intros l' o Hl'. split; [by apply Hkept|].
    subst h2. rewrite lookup_app_l; [by apply Hkept|].
    eapply lookup_lt_Some. by apply Hkept.
Qed.

(** C9: a row without order id does not count as an order: with or
    without it [total_orders] is the same, the number of distinct ids
    present; its revenue and its quantity do enter the sums behind
    [total_revenue] and [total_items_sold]. *)
Theorem rows_without_order_id_only_add_to_sums df r rows1 rows2 :
  metric_columns ⊆ columns df →
  rows df = rows1 ++ r :: rows2 →
  order_id r = None →
  let rest := Frame (columns df) (rows1 ++ rows2) in
  ∃ m m', calculate_metrics df = Ok m
    ∧ calculate_metrics rest = Ok m'
    ∧ total_orders m = total_orders m'
    ∧ total_orders m
      = Z.of_nat (length (remove_dups (omap order_id (rows df))))
    ∧ total_revenue m
      = round2 (revenue_sum rest + default 0 (revenue r))%Qc
    ∧ total_items_sold m
      = int (quantity_sum rest + default 0 (quantity r))%Qc.
Proof.
  intros Hcols Hrows Hid rest.
  exists (metrics_of df), (metrics_of rest).
  split; [by apply calculate_metrics_Ok|].
  split; [by apply calculate_metrics_Ok|].
  assert (∀ l : list row, omap id (order_id <$> l) = omap order_id l) as Hom.
  { induction l as [|x l IH]; [done|]. rewrite fmap_cons. cbn.
    rewrite IH. by destruct (order_id x). }
  unfold metrics_of.
  cbn [total_orders total_revenue total_items_sold]. unfold nunique.
  rewrite !Hom. subst rest. unfold revenue_sum, quantity_sum.
  cbn [rows]. rewrite Hrows.
  rewrite !omap_app. cbn [omap list_omap]. rewrite Hid.
  rewrite !fmap_app, !series_sum_app. cbn [fmap list_fmap].
  rewrite !series_sum_cons, !add_cell_default.
  split; [done|]. split; [done|]. split; f_equal; ring.
Qed.

End Claims.

(** ** The store *)

Section Store.

Context `{Pandas}.

(** The cases of [upload_file]. *)
Lemma upload_file_cases store file_filename content time :
  upload_file store file_filename content time
  = if negb (endswith file_filename ".csv")
    then (Raise (HTTPException 400 "Only CSV files are allowed"), store)
    else
      match process_pizza_data content with
      | Ok df =>
          match calculate_metrics df with
          | Ok m =>
              (match
                 JSONResponse
                   (MkUploadResponse "File processed successfully"
                      (pretty (int time)) (len df) m)
               with
               | Ok _ =>
                   Ok (MkUploadResponse "File processed successfully"
                         (pretty (int time)) (len df) m)
               | Raise e => Raise (HTTPException 500 (str e))
               | Unmodelled => Unmodelled
               end,
               <[pretty (int time) := MkEntry file_filename df (len df) m]>
                 store)
          | Raise e => (Raise (HTTPException 500 (str e)), store)
          | Unmodelled => (Unmodelled, store)
          end
      | Raise e => (Raise (HTTPException 500 (str e)), store)
      | Unmodelled => (Unmodelled, store)
      end.
Proof.
  unfold upload_file. destruct (negb _); [done|].
  destruct (process_pizza_data content); cbn [mbind result_bind]; [|done..].
  by destruct (calculate_metrics _).
Qed.

(** An upload that succeeds has gone through every step. *)
Lemma upload_file_Ok_inv store file_filename content time response store' :
  upload_file store file_filename content time = (Ok response, store') →
  ∃ df m,
    endswith file_filename ".csv" = true
    ∧ process_pizza_data content = Ok df
    ∧ calculate_metrics df = Ok m
    ∧ response = MkUploadResponse "File processed successfully"
                   (pretty (int time)) (len df) m
    ∧ JSONResponse response = Ok tt
    ∧ store' = <[pretty (int time) := MkEntry file_filename df (len df) m]>
                 store.
Proof.
  rewrite upload_file_cases.
  destruct (endswith file_filename ".csv"); cbn [negb]; [|done].
  destruct (process_pizza_data content) as [df| |] eqn:Hdf; [|done..].
  destruct (calculate_metrics df) as [m| |] eqn:Hm; [|done..].
  destruct (JSONResponse _) as [[]| |] eqn:Hjson; [|done..].
  intros [= <- <-]. by exists df, m.
Qed.

(** The store an upload leaves: the one it was given, or that one with
    the new entry. *)
Lemma upload_file_store store file_filename content time :
  (upload_file store file_filename content time).2 = store
  ∨ ∃ df m,
      process_pizza_data content = Ok df
      ∧ calculate_metrics df = Ok m
      ∧ (upload_file store file_filename content time).2
        = <[pretty (int time) := MkEntry file_filename df (len df) m]> store.
Proof.
  rewrite upload_file_cases. destruct (negb _); [by left|].
  destruct (process_pizza_data content) as [df| |] eqn:Hdf; [|by left..].
  destruct (calculate_metrics df) as [m| |] eqn:Hm; [|by left..].
  right. by exists df, m.
Qed.

(** Every stored entry records the length of its frame and the metrics of
    its frame. *)
Lemma reachable_entry store file_id entry :
  reachable store →
  store !! file_id = Some entry →
  record_count entry = len (dataframe entry)
  ∧ calculate_metrics (dataframe entry) = Ok (metrics entry).
Proof.
  intros Hreach. revert file_id entry.
  induction Hreach as [|store fn content time Hreach IH];
    intros file_id entry.
  { by rewrite lookup_empty. }
  destruct (upload_file_store store fn content time)
    as [->|(df & m & _ & Hm & ->)]; [apply IH|].
  rewrite lookup_insert. case_decide; [|apply IH].
  intros [= <-]. by cbn.
Qed.

(** X1: a failure of [process_pizza_data] reaches the client of
    [POST /api/upload] with status 500 and leaves the store as it was: the
    handler's own [except] clause catches the 400 error and raises anew. *)
Theorem upload_file_transform_error store file_filename content time e :
  endswith file_filename ".csv" = true →
  transform_error content = Some e →
  upload_file store file_filename content time
  = (Raise (HTTPException 500
              (str (HTTPException 400
                      ("Error processing file: " +:+ str e)))),
     store).
Proof.
  intros Hcsv He. rewrite upload_file_cases, Hcsv. cbn [negb].
  rewrite process_pizza_data_cases. unfold transform_error in He.
  destruct (transform content) as [|e'|]; [done| |done].
  by injection He as ->.
Qed.

(** X2: after an upload that succeeds, [get_metrics] under the returned
    [file_id] gives the metrics of the response, and the response's
    [record_count] is the length of the stored frame. *)
Theorem upload_then_get_metrics store file_filename content time response
  store' :
  upload_file store file_filename content time = (Ok response, store') →
  get_metrics store' (file_id response) = Ok (response_metrics response)
  ∧ ∃ entry, store' !! file_id response = Some entry
      ∧ response_record_count response = len (dataframe entry)
      ∧ calculate_metrics (dataframe entry) = Ok (response_metrics response).
Proof.
  intros (df & m & _ & _ & Hm & -> & _ & ->)%upload_file_Ok_inv.
  unfold get_metrics. cbn [file_id]. rewrite lookup_insert_eq.
  split; [done|]. eexists. split; [done|]. by cbn.
Qed.

(** C10: on a store the handlers can be given, a negative [limit] makes
    [get_raw_data] answer with the first [max(0, record_count - |limit|)]
    rows of the stored frame, serialised, which are all its rows but the
    last [|limit|]. *)
Theorem get_raw_data_negative_limit store file_id entry limit :
  reachable store →
  store !! file_id = Some entry →
  limit < 0 →
  get_raw_data store file_id limit
  = Ok (serializable_row (dataframe entry)
          <$> take (Z.to_nat (Z.max 0 (record_count entry - Z.abs limit)))
                (rows (dataframe entry)))
  ∧ take (Z.to_nat (Z.max 0 (record_count entry - Z.abs limit)))
      (rows (dataframe entry))
    = reverse (drop (Z.to_nat (Z.abs limit))
                 (reverse (rows (dataframe entry)))).
Proof.
  intros Hreach Hentry Hlimit.
  destruct (reachable_entry _ _ _ Hreach Hentry) as [-> _].
  unfold get_raw_data, len. rewrite Hentry.
  set (l := rows (dataframe entry)).
  assert (Z.to_nat (Z.max 0 (Z.of_nat (length l) - Z.abs limit))
          = (length l - Z.to_nat (Z.abs limit))%nat) as -> by lia.
  split.
  - unfold head_n. rewrite (proj2 (Z.leb_gt 0 limit)) by lia.
    do 3 f_equal. lia.
  - by rewrite drop_reverse, reverse_involutive.
Qed.

End Store.

(** * Further properties of the handlers and the two functions *)

Section Outcomes.

Context `{Pandas}.

(** [calculate_metrics] returns only on a frame with the columns it
    reads. *)
Lemma calculate_metrics_Ok_inv df m :
  calculate_metrics df = Ok m →
  metric_columns ⊆ columns df ∧ m = metrics_of df.
Proof.
  intros Hm.
  destruct (List.find (λ c, negb (bool_decide (c ∈ columns df)))
              metric_columns) eqn:Hfind.
  - destruct (calculate_metrics_KeyError df) as (c' & _ & Hc).
    + intros Hsub. apply find_missing_None in Hsub. congruence.
    + congruence.
  - apply find_missing_None in Hfind. split; [done|].
    rewrite calculate_metrics_Ok in Hm by done. congruence.
Qed.

Lemma metric_columns_transformed cols :
  transform_columns ⊆ cols →
  metric_columns ⊆ transformed_columns cols ↔ required_columns ⊆ cols.
Proof.
  intros Htr. unfold transformed_columns. split.
  - intros Hm c Hc.
    assert (∀ c', c' ∈ metric_columns →
                  c' ∈ cols ∨ c' ∈ [OrderDatetime; Month; DayOfWeek; Hour;
                                    Revenue]) as Hm'.
    { intros c' Hc'. apply Hm in Hc'.
      rewrite !elem_of_add_label in Hc'.
      destruct Hc' as [[[[[?| ->]| ->]| ->]| ->]| ->];
        [by left|right; elem_of_items..]. }
    unfold required_columns in Hc.
    repeat (apply elem_of_cons in Hc as [->|Hc]);
      [..|by apply elem_of_nil in Hc]; try (apply Htr; by elem_of_items).
    all: match goal with
         | |- ?x ∈ _ =>
             let Hx := fresh in
             assert (x ∈ metric_columns) as Hx
               by (unfold metric_columns; elem_of_items);
             destruct (Hm' x Hx) as [?|Hd]; [done|];
             repeat (apply elem_of_cons in Hd as [[=]|Hd]);
             by apply elem_of_nil in Hd
         end.
  - intros Hreq c Hc. rewrite !elem_of_add_label.
    unfold metric_columns in Hc.
    repeat (apply elem_of_cons in Hc as [->|Hc]);
      [..|by apply elem_of_nil in Hc]; try tauto.
    all: do 5 left; apply Hreq; elem_of_items.
Qed.

(** The timestamps of a transformed frame. *)
Lemma transformed_frame_timestamps df :
  Forall (λ r, is_Some (order_datetime r)) (rows (transformed_frame df)).
Proof.
  unfold transformed_frame. cbn [rows]. apply Forall_fmap, Forall_forall.
  intros r Hr%list_elem_of_In%list_elem_of_filter.
  cbn. rewrite order_timestamp_fill. by destruct Hr.
Qed.

(** Every stored frame is a transformed frame with the columns
    [calculate_metrics] reads, under a key that is a decimal number. *)
Lemma reachable_frame store file_id entry :
  reachable store →
  store !! file_id = Some entry →
  (∃ z : Z, file_id = pretty z)
  ∧ metric_columns ⊆ columns (dataframe entry)
  ∧ ∃ df, dataframe entry = transformed_frame df.
Proof.
  intros Hreach. revert file_id entry.
  induction Hreach as [|store fn content time Hreach IH];
    intros file_id entry.
  { by rewrite lookup_empty. }
  destruct (upload_file_store store fn content time)
    as [->|(df & m & Hdf & Hm & ->)]; [apply IH|].
  rewrite lookup_insert. case_decide as Hid; [|apply IH].
  intros [= <-]. cbn [dataframe]. split; [by eauto|].
  split; [exact (proj1 (calculate_metrics_Ok_inv _ _ Hm))|].
  destruct (process_pizza_data_Ok_inv _ _ Hdf) as (text & df0 & _ & _ & _ & ->).
  by exists df0.
Qed.

Lemma required_transform_columns cols :
  required_columns ⊆ cols → transform_columns ⊆ cols.
Proof.
  intros Hreq c Hc. apply Hreq. unfold transform_columns in Hc.
  repeat (apply elem_of_cons in Hc as [->|Hc]; [elem_of_items|]).
  by apply elem_of_nil in Hc.
Qed.


(** X4: an upload changes the store at most under [str(int(time))], the id
    of a response it returns, and removes no entry.  An upload refused for
    its name, or in which [process_pizza_data] or [calculate_metrics]
    raises, leaves the store as it was.  The entry is written before the
    response is built: an upload whose response does not render is
    answered with status 500, and its entry is in the store. *)
Theorem upload_file_writes_one_id store file_filename content time :
  (∀ k, k ≠ pretty (int time) →
        (upload_file store file_filename content time).2 !! k = store !! k)
  ∧ (∀ k, is_Some (store !! k) →
          is_Some ((upload_file store file_filename content time).2 !! k))
  ∧ (∀ response,
       (upload_file store file_filename content time).1 = Ok response →
       file_id response = pretty (int time)
       ∧ is_Some ((upload_file store file_filename content time).2
                    !! file_id response))
  ∧ (endswith file_filename ".csv" = false →
     (upload_file store file_filename content time).2 = store)
  ∧ (∀ e, process_pizza_data content = Raise e →
          (upload_file store file_filename content time).2 = store)
  ∧ (∀ df e, process_pizza_data content = Ok df →
             calculate_metrics df = Raise e →
             (upload_file store file_filename content time).2 = store)
  ∧ (∀ df m e,
       endswith file_filename ".csv" = true →
       process_pizza_data content = Ok df →
       calculate_metrics df = Ok m →
       JSONResponse
         (MkUploadResponse "File processed successfully" (pretty (int time))
            (len df) m) = Raise e →
       upload_file store file_filename content time
       = (Raise (HTTPException 500 (str e)),
          <[pretty (int time) := MkEntry file_filename df (len df) m]>
            store)).
Proof.
  split; [|split; [|split; [|split; [|split; [|split]]]]].
  - intros k Hk.
    destruct (upload_file_store store file_filename content time)
      as [->|(df & m & _ & _ & ->)]; [done|].
    by rewrite lookup_insert_ne.
  - intros k Hk.
    destruct (upload_file_store store file_filename content time)
      as [->|(df & m & _ & _ & ->)]; [done|].
    rewrite lookup_insert. by case_decide.
  - intros response Hresponse.
    destruct (upload_file_Ok_inv store file_filename content time response
                (upload_file store file_filename content time).2)
      as (df & m & _ & _ & _ & -> & _ & ->).
    { rewrite <- Hresponse. apply surjective_pairing. }
    cbn [file_id]. split; [done|]. by rewrite lookup_insert_eq.
  - intros Hcsv. by rewrite upload_file_cases, Hcsv.
  - intros e He. rewrite upload_file_cases, He. by destruct (negb _).
  - intros df e Hdf He. rewrite upload_file_cases, Hdf, He.
    by destruct (negb _).
  - intros df m e Hcsv Hdf Hm Hjson.
    by rewrite upload_file_cases, Hcsv, Hdf, Hm, Hjson.
Qed.

(** X5: the id of an upload is the whole second of its time.  Of two
    uploads in the same second the later one takes the place of the
    earlier; two uploads in different seconds are both kept. *)
Theorem upload_file_same_second store fn1 c1 t1 r1 store1 fn2 c2 t2 r2
  store2 :
  upload_file store fn1 c1 t1 = (Ok r1, store1) →
  upload_file store1 fn2 c2 t2 = (Ok r2, store2) →
  file_id r1 = pretty (int t1) ∧ file_id r2 = pretty (int t2)
  ∧ get_metrics store2 (file_id r2) = Ok (response_metrics r2)
  ∧ (int t1 = int t2 →
     file_id r1 = file_id r2 ∧ dom store2 = dom store1)
  ∧ (int t1 ≠ int t2 →
     file_id r1 ≠ file_id r2
     ∧ get_metrics store2 (file_id r1) = Ok (response_metrics r1)).
Proof.
  intros H1 H2.
  assert (∀ s fn c t r s', upload_file s fn c t = (Ok r, s') →
            file_id r = pretty (int t)
            ∧ ∃ entry, s' = <[pretty (int t) := entry]> s
                       ∧ metrics entry = response_metrics r) as Hshape.
  { intros s fn c t r s'.
    intros (df & m & _ & _ & _ & -> & _ & ->)%upload_file_Ok_inv.
    split; [done|]. by eexists. }
  destruct (Hshape _ _ _ _ _ _ H1) as (Hid1 & e1 & -> & Hm1).
  destruct (Hshape _ _ _ _ _ _ H2) as (Hid2 & e2 & -> & Hm2).
  split; [done|]. split; [done|]. rewrite Hid1, Hid2. unfold get_metrics.
  split; [by rewrite lookup_insert_eq, Hm2|]. split.
  - intros ->. split; [done|]. by rewrite insert_insert_eq, !dom_insert_L.
  - intros Hne.
    assert (pretty (int t1) ≠ pretty (int t2)) as Hne'
      by (intros Heq; by apply (inj pretty) in Heq).
    split; [done|]. rewrite lookup_insert_ne by done.
    by rewrite lookup_insert_eq, Hm1.
Qed.

(** X6: every entry of a store the handlers can be given holds a frame as
    [process_pizza_data] returns it, with the columns [calculate_metrics]
    reads and a timestamp on every row, together with the length and the
    metrics of that frame, under a key that is a decimal number. *)
Theorem stored_entries_are_transformed store file_id entry :
  reachable store →
  store !! file_id = Some entry →
  (∃ z : Z, file_id = pretty z)
  ∧ metric_columns ⊆ columns (dataframe entry)
  ∧ Forall (λ r, is_Some (order_datetime r)) (rows (dataframe entry))
  ∧ record_count entry = len (dataframe entry)
  ∧ calculate_metrics (dataframe entry) = Ok (metrics entry).
Proof.
  intros Hreach Hentry.
  destruct (reachable_frame _ _ _ Hreach Hentry) as (Hid & Hcols & df & Hdf).
  destruct (reachable_entry _ _ _ Hreach Hentry) as [Hcount Hm].
  split; [done|]. split; [done|]. split; [|done].
  rewrite Hdf. apply transformed_frame_timestamps.
Qed.

End Outcomes.

(** ** Reading the store *)

Section Reading.

Context `{Pandas}.

(** With the stored [record_count] as limit, [get_raw_data] answers with
    every row of the stored frame. *)
Lemma get_raw_data_record_count store file_id entry :
  reachable store →
  store !! file_id = Some entry →
  get_raw_data store file_id (record_count entry)
  = Ok (serializable_row (dataframe entry) <$> rows (dataframe entry))
  ∧ Z.of_nat (length (rows (dataframe entry))) = record_count entry.
Proof.
  intros Hreach Hentry.
  destruct (reachable_entry _ _ _ Hreach Hentry) as [Hcount _].
  unfold get_raw_data. rewrite Hentry, Hcount. unfold len.
  rewrite head_n_nonneg by lia. by rewrite Nat2Z.id, firstn_all.
Qed.

(** X7: with a limit that is not negative, [get_raw_data] answers with
    the first [limit] rows of its full answer, which has [record_count]
    rows; so it returns [min(limit, record_count)] rows. *)
Theorem get_raw_data_nonnegative_limit store file_id entry limit :
  reachable store →
  store !! file_id = Some entry →
  0 ≤ limit →
  ∃ all, get_raw_data store file_id (record_count entry) = Ok all
    ∧ Z.of_nat (length all) = record_count entry
    ∧ get_raw_data store file_id limit = Ok (take (Z.to_nat limit) all)
    ∧ Z.of_nat (length (take (Z.to_nat limit) all))
      = Z.min limit (record_count entry).
Proof.
  intros Hreach Hentry Hlimit.
  destruct (get_raw_data_record_count _ _ _ Hreach Hentry) as [Hall Hlen].
  exists (serializable_row (dataframe entry) <$> rows (dataframe entry)).
  split; [done|]. rewrite length_fmap. split; [done|].
  unfold get_raw_data. rewrite Hentry, head_n_nonneg by done.
  rewrite fmap_take, length_take, length_fmap.
  split; [done|]. lia.
Qed.

(** X8: every row that [get_raw_data] answers with has one item per
    column of the stored frame, under the column's name and in the frame's
    order; every value is null, a number or text; the item of a missing
    cell is null, and the item [order_datetime] is the text that
    [strftime('%Y-%m-%d %H:%M:%S')] gives for the timestamp of the row,
    which every stored row has. *)
Theorem get_raw_data_json_safe store file_id limit answer :
  reachable store →
  get_raw_data store file_id limit = Ok answer →
  ∃ entry,
    store !! file_id = Some entry
    ∧ Forall2
        (λ line r,
           line.*1 = column_name <$> columns (dataframe entry)
           ∧ Forall (λ kv, json_safe kv.2 = true) line
           ∧ (∀ c, c ∈ columns (dataframe entry) → cell_value c r = VNaN →
                   (column_name c, VNone) ∈ line)
           ∧ ∃ ts, order_datetime r = Some ts
               ∧ ("order_datetime", VStr (Timestamp.strftime ts)) ∈ line)
        answer (head_n limit (rows (dataframe entry))).
Proof.
  intros Hreach. unfold get_raw_data.
  destruct (store !! file_id) as [entry|] eqn:Hentry; [|done].
  intros [= <-]. exists entry. split; [done|].
  destruct (reachable_frame _ _ _ Hreach Hentry) as (_ & Hcols & df & Hdf).
  assert (Forall (λ r, is_Some (order_datetime r))
            (head_n limit (rows (dataframe entry)))) as Hts.
  { pose proof (transformed_frame_timestamps df) as Hall.
    rewrite <- Hdf in Hall. rewrite Forall_forall in Hall.
    apply Forall_forall. intros r Hr%list_elem_of_In.
    apply Hall, list_elem_of_In. unfold head_n in Hr.
    destruct (0 <=? limit);
      (eapply elem_of_sublist; [exact Hr|apply sublist_take]). }
  apply Forall2_fmap_l, Forall_Forall2_diag.
  eapply Forall_impl; [|exact Hts]. intros r [ts Hr].
  unfold compose. cbn beta.
  unfold serializable_row, items. rewrite <- !list_fmap_compose.
  split; [done|]. split; [|split].
  - apply Forall_fmap, Forall_forall. intros c _. cbn.
    by destruct (cell_value c r).
  - intros c Hc Hnan. apply list_elem_of_fmap. exists c.
    split; [|done]. cbn. by rewrite Hnan.
  - exists ts. split; [done|]. apply list_elem_of_fmap. exists OrderDatetime.
    split; [cbn; by rewrite Hr|]. apply Hcols. elem_of_items.
Qed.

(** X9: the [data_preview] of the stored metrics is what [get_raw_data]
    answers for the same entry with [limit=10]; it has at most 10 rows. *)
Theorem data_preview_is_raw_data_head store file_id entry :
  reachable store →
  store !! file_id = Some entry →
  get_raw_data store file_id 10 = Ok (data_preview (metrics entry))
  ∧ (length (data_preview (metrics entry)) ≤ 10)%nat.
Proof.
  intros Hreach Hentry.
  destruct (reachable_entry _ _ _ Hreach Hentry) as [_ Hm].
  apply calculate_metrics_Ok_inv in Hm as [_ ->].
  unfold get_raw_data. rewrite Hentry. unfold metrics_of.
  cbn [data_preview]. split; [done|].
  rewrite length_fmap, head_n_nonneg, length_take by done. lia.
Qed.

(** X10: the ids that [get_uploaded_files] does not list are exactly
    those for which [get_metrics] answers 404, and exactly those for which
    [get_raw_data] does, whatever the limit. *)
Theorem unknown_file_id_not_found store file_id :
  (get_uploaded_files store !! file_id = None
   ↔ get_metrics store file_id = Raise (HTTPException 404 "File not found"))
  ∧ (get_uploaded_files store !! file_id = None
     ↔ ∀ limit, get_raw_data store file_id limit
                = Raise (HTTPException 404 "File not found")).
Proof.
  unfold get_uploaded_files, get_metrics, get_raw_data.
  rewrite map_lookup_imap. destruct (store !! file_id); cbn.
  - split; (split; [done|]); [done|]. intros Hall. by specialize (Hall 0).
  - done.
Qed.

(** X11: an item of the listing carries its own id as [upload_time], the
    file name of the stored entry, and as [record_count] the number of
    rows that [get_raw_data] can return for that id. *)
Theorem get_uploaded_files_item store file_id info :
  reachable store →
  get_uploaded_files store !! file_id = Some info →
  upload_time info = file_id
  ∧ ∃ entry all,
      store !! file_id = Some entry
      ∧ info_filename info = filename entry
      ∧ get_raw_data store file_id (info_record_count info) = Ok all
      ∧ Z.of_nat (length all) = info_record_count info.
Proof.
  intros Hreach. unfold get_uploaded_files. rewrite map_lookup_imap.
  destruct (store !! file_id) as [entry|] eqn:Hentry; [|done].
  cbn. intros [= <-]. cbn. split; [done|].
  destruct (get_raw_data_record_count _ _ _ Hreach Hentry) as [Hall Hlen].
  exists entry,
    (serializable_row (dataframe entry) <$> rows (dataframe entry)).
  by rewrite length_fmap.
Qed.

(** X12: after an upload that succeeds the listing has, under the
    returned id, the uploaded file name and the [record_count] of the
    response; what it listed under other ids is unchanged. *)
Theorem upload_then_get_uploaded_files store file_filename content time
  response store' :
  upload_file store file_filename content time = (Ok response, store') →
  get_uploaded_files store' !! file_id response
  = Some (MkFileInfo file_filename (response_record_count response)
            (file_id response))
  ∧ ∀ k, k ≠ file_id response →
         get_uploaded_files store' !! k = get_uploaded_files store !! k.
Proof.
  intros (df & m & _ & _ & _ & -> & _ & ->)%upload_file_Ok_inv.
  unfold get_uploaded_files. cbn [file_id response_record_count].
  split.
  - by rewrite map_lookup_imap, lookup_insert_eq.
  - intros k Hk. by rewrite !map_lookup_imap, lookup_insert_ne.
Qed.

End Reading.

(** ** More on the transformation *)

Lemma length_filter_all {A} (P : A → Prop) `{∀ x, Decision (P x)}
  (l : list A) :
  length (filter P l) = length l ↔ Forall P l.
Proof.
  split; [|intros Hl; by rewrite filter_all].
  induction l as [|x l IH]; [done|]. rewrite filter_cons.
  destruct (decide (P x)) as [Hx|Hx]; cbn.
  - intros [= Hlen]. constructor; [done|by apply IH].
  - intros Hlen. pose proof (length_filter P l). lia.
Qed.

Lemma length_remove_dups `{EqDecision A} (l : list A) :
  (length (remove_dups l) ≤ length l)%nat.
Proof.
  induction l as [|x l IH]; [done|]. cbn.
  destruct (decide_rel _ _ _); cbn; lia.
Qed.

Lemma length_omap {A B} (f : A → option B) (l : list A) :
  (length (omap f l) ≤ length l)%nat.
Proof.
  induction l as [|x l IH]; [done|]. cbn. destruct (f x); cbn; lia.
Qed.

Section Transformed.

Context `{Pandas}.

Lemma transform_row_cells r :
  order_date (transform_row r) = order_date r
  ∧ order_time (transform_row r) = order_time r
  ∧ order_datetime (transform_row r) = order_timestamp r
  ∧ month (transform_row r) = Timestamp.month <$> order_timestamp r
  ∧ day_of_week (transform_row r) = Timestamp.day_name <$> order_timestamp r
  ∧ hour (transform_row r) = Timestamp.hour <$> order_timestamp r.
Proof. by destruct r as [? ? ? ? ? ? [q|] ? [p|] ? ? ? ? ?]. Qed.

(** X13: every row [process_pizza_data] returns has a date and a time
    whose joined text parses to its [order_datetime], and its [month],
    [day_of_week] and [hour] are those of that timestamp; the frame has
    the five derived columns besides all columns of the file. *)
Theorem process_pizza_data_derives_from_timestamp file_content out :
  process_pizza_data file_content = Ok out →
  Forall
    (λ r, ∃ d t ts,
       order_date r = Some d ∧ order_time r = Some t
       ∧ strptime ((d +:+ " ") +:+ t) = Some ts
       ∧ order_datetime r = Some ts
       ∧ month r = Some (Timestamp.month ts)
       ∧ day_of_week r = Some (Timestamp.day_name ts)
       ∧ hour r = Some (Timestamp.hour ts))
    (rows out)
  ∧ (∀ c, c ∈ [OrderDatetime; Month; DayOfWeek; Hour; Revenue] →
          c ∈ columns out)
  ∧ ∀ text csv, decode file_content = Ok text → read_csv text = Ok csv →
                columns (frame csv) ⊆ columns out.
Proof.
  intros Hout.
  destruct (process_pizza_data_Ok_inv _ _ Hout)
    as (text & df & Hdec & Hread & _ & ->).
  unfold transformed_frame. cbn [rows columns]. split; [|split].
  - apply Forall_fmap, Forall_forall.
    intros r [[ts Hts] _]%list_elem_of_In%list_elem_of_filter.
    unfold compose. cbn beta.
    destruct (transform_row_cells r) as (-> & -> & -> & -> & -> & ->).
    rewrite Hts. unfold order_timestamp, order_text in Hts.
    destruct (order_date r) as [d|]; [|done].
    destruct (order_time r) as [t|]; [|done].
    by exists d, t, ts.
  - intros c Hc. unfold transformed_columns.
    rewrite !elem_of_add_label.
    repeat (apply elem_of_cons in Hc as [->|Hc]); try tauto.
    by apply elem_of_nil in Hc.
  - intros text' csv Hdec' Hread' c Hc.
    assert (text' = text) as -> by congruence.
    assert (csv = Typed df) as -> by congruence.
    unfold transformed_columns. rewrite !elem_of_add_label. tauto.
Qed.

(** X14: the frame [process_pizza_data] returns has at most as many rows
    as the file; it has as many exactly when the text of every row parses,
    and none exactly when the text of no row does. *)
Theorem process_pizza_data_row_count file_content text csv out :
  decode file_content = Ok text →
  read_csv text = Ok csv →
  process_pizza_data file_content = Ok out →
  len out ≤ len (frame csv)
  ∧ (len out = len (frame csv)
     ↔ Forall (λ r, is_Some (order_timestamp r)) (rows (frame csv)))
  ∧ (len out = 0
     ↔ Forall (λ r, order_timestamp r = None) (rows (frame csv))).
Proof.
  intros Hdec Hread Hout.
  destruct (process_pizza_data_Ok_inv _ _ Hout)
    as (text' & df & Hdec' & Hread' & _ & ->).
  assert (text' = text) as -> by congruence.
  assert (csv = Typed df) as -> by congruence.
  unfold len, transformed_frame. cbn [rows frame Typed].
  rewrite length_fmap.
  split; [apply Nat2Z.inj_le, length_filter|]. split.
  - rewrite Nat2Z.inj_iff. apply length_filter_all.
  - rewrite <- Nat2Z.inj_0, Nat2Z.inj_iff, length_zero_iff_nil.
    rewrite Forall_forall. split.
    + intros Hnil r Hr%list_elem_of_In.
      destruct (order_timestamp r) as [ts|] eqn:Hts; [|done].
      assert (r ∈ filter (λ r, is_Some (order_timestamp r)) (rows df)) as Hin
        by (apply list_elem_of_filter; by rewrite Hts).
      rewrite Hnil in Hin. by apply elem_of_nil in Hin.
    + intros Hnone.
      destruct (filter _ _) as [|r l] eqn:Hf; [done|].
      assert (r ∈ filter (λ r, is_Some (order_timestamp r)) (rows df))
        as [[ts Hts] Hr%list_elem_of_In]%list_elem_of_filter
        by (rewrite Hf; by left).
      rewrite (Hnone r Hr) in Hts. done.
Qed.

(** X15: the revenue sum of the returned frame is the sum, over the rows
    of the file whose text parses, of quantity (1 when missing) times
    total price (the unit price when missing); a row with neither price
    adds nothing. *)
Theorem process_pizza_data_revenue_sum file_content text csv out :
  decode file_content = Ok text →
  read_csv text = Ok csv →
  process_pizza_data file_content = Ok out →
  revenue_sum out
  = series_sum
      ((λ r, p ← (if total_price r is Some _ then total_price r
                  else unit_price r);
             Some (default 1 (quantity r) * p)%Qc)
         <$> filter (λ r, is_Some (order_timestamp r)) (rows (frame csv))).
Proof.
  intros Hdec Hread Hout.
  destruct (process_pizza_data_Ok_inv _ _ Hout)
    as (text' & df & Hdec' & Hread' & _ & ->).
  assert (text' = text) as -> by congruence.
  assert (csv = Typed df) as -> by congruence.
  unfold revenue_sum, transformed_frame. cbn [rows frame Typed].
  rewrite <- list_fmap_compose.
  f_equal. apply list_fmap_ext. intros _ r _.
  by destruct r as [? ? ? ? ? ? [q|] [u|] [p|] ? ? ? ? ?].
Qed.

End Transformed.

(** ** More on the metrics *)

Lemma date_leb_total a b : date_leb a b = true ∨ date_leb b a = true.
Proof.
  destruct a as [y1 m1 d1], b as [y2 m2 d2]. unfold date_leb. cbn.
  destruct (Z.ltb_spec y1 y2), (Z.ltb_spec y2 y1), (Z.eqb_spec y1 y2),
    (Z.eqb_spec y2 y1), (Z.ltb_spec m1 m2), (Z.ltb_spec m2 m1),
    (Z.eqb_spec m1 m2), (Z.eqb_spec m2 m1), (Z.leb_spec d1 d2),
    (Z.leb_spec d2 d1); cbn; try lia; auto.
Qed.

Lemma omap_id_fmap {A B} (f : A → option B) (l : list A) :
  omap id (f <$> l) = omap f l.
Proof.
  induction l as [|x l IH]; [done|]. rewrite fmap_cons. cbn.
  rewrite IH. by destruct (f x).
Qed.

Lemma Z_leb_total (a b : Z) : (a <=? b) = true ∨ (b <=? a) = true.
Proof. destruct (Z.leb_spec a b), (Z.leb_spec b a); auto; lia. Qed.

(** A grouped sum of the revenue column is a table of revenue per key. *)
Lemma groupby_sum_revenue_by `{EqDecision K} (key : row → option K)
  (leb : K → K → bool) (rs : list row) :
  (∀ a b, leb a b = true ∨ leb b a = true) →
  revenue_by key leb rs (groupby_sum leb (key <$> rs) (revenue <$> rs)).
Proof.
  intros Htotal. unfold revenue_by, groupby_sum.
  rewrite <- list_fmap_compose.
  assert (fst ∘ (λ k : K, (k, group_sum (key <$> rs) (revenue <$> rs) k))
          = id) as -> by done.
  rewrite list_fmap_id. split; [apply NoDup_group_keys|]. split.
  - apply Sorted_merge_sort. intros a b.
    destruct (Htotal a b) as [Hab|Hab]; [left|right]; by rewrite Hab.
  - intros k v. rewrite list_elem_of_fmap. split.
    + intros (k' & [= -> ->] & Hk). apply elem_of_group_keys in Hk.
      by rewrite group_sum_rows.
    + intros [Hk ->]. exists k. rewrite group_sum_rows.
      split; [done|]. by apply elem_of_group_keys.
Qed.

Section Metrics.

Context `{Pandas}.

(** X16: [category_sales], [size_sales], [hourly_sales] and [daily_sales]
    each have one line per category, size, hour or calendar day that some
    row has, in ascending order of the key, with the revenue of the rows
    of that key; a day is written [YYYY-MM-DD]. *)
Theorem calculate_metrics_breakdowns df m :
  calculate_metrics df = Ok m →
  revenue_by pizza_category String.leb (rows df) (category_sales m)
  ∧ revenue_by pizza_size String.leb (rows df) (size_sales m)
  ∧ revenue_by hour Z.leb (rows df) (hourly_sales m)
  ∧ ∃ table,
      revenue_by (λ r, date_of <$> order_datetime r) date_leb (rows df) table
      ∧ daily_sales m = (λ kv, (date_str kv.1, kv.2)) <$> table.
Proof.
  intros [_ ->]%calculate_metrics_Ok_inv. unfold metrics_of.
  cbn [category_sales size_sales hourly_sales daily_sales].
  split; [apply groupby_sum_revenue_by, String.leb_total|].
  split; [apply groupby_sum_revenue_by, String.leb_total|].
  split; [apply groupby_sum_revenue_by, Z_leb_total|].
  eexists. split; [|reflexivity].
  unfold dt_date. rewrite <- list_fmap_compose.
  apply (groupby_sum_revenue_by (λ r, date_of <$> order_datetime r)),
    date_leb_total.
Qed.

Lemma groupby_sum_keyed_revenue `{EqDecision K} (key : row → option K)
  (leb : K → K → bool) (rs : list row) :
  Qc_sum (groupby_sum leb (key <$> rs) (revenue <$> rs)).*2
  = keyed_revenue key rs.
Proof.
  rewrite groupby_sum_total. unfold keyed_revenue.
  rewrite zip_with_fmap_l, zip_with_fmap_r, zip_with_diag.
  by rewrite filter_fmap, <- list_fmap_compose.
Qed.

(** X17: the revenues of [category_sales] add up to the revenue of the
    rows that have a category, and likewise for [size_sales] and
    [hourly_sales]: a row without the key is in no line.  On a frame whose
    rows all have the key the lines add up to the revenue sum. *)
Theorem calculate_metrics_breakdown_totals df m :
  calculate_metrics df = Ok m →
  Qc_sum (category_sales m).*2 = keyed_revenue pizza_category (rows df)
  ∧ Qc_sum (size_sales m).*2 = keyed_revenue pizza_size (rows df)
  ∧ Qc_sum (hourly_sales m).*2 = keyed_revenue hour (rows df)
  ∧ (Forall (λ r, is_Some (pizza_category r)) (rows df) →
     Qc_sum (category_sales m).*2 = revenue_sum df)
  ∧ (Forall (λ r, is_Some (pizza_size r)) (rows df) →
     Qc_sum (size_sales m).*2 = revenue_sum df)
  ∧ (Forall (λ r, is_Some (hour r)) (rows df) →
     Qc_sum (hourly_sales m).*2 = revenue_sum df).
Proof.
  intros [_ ->]%calculate_metrics_Ok_inv. unfold metrics_of.
  cbn [category_sales size_sales hourly_sales].
  rewrite !groupby_sum_keyed_revenue. unfold keyed_revenue, revenue_sum.
  do 3 (split; [done|]).
  split; [|split]; intros Hall; by rewrite filter_all.
Qed.

(** X18: [total_orders] lies between 0 and the number of rows; it is 0
    exactly when no row has an order id, and then [avg_order_value] is
    0. *)
Theorem total_orders_bounds df m :
  calculate_metrics df = Ok m →
  0 ≤ total_orders m ≤ len df
  ∧ (total_orders m = 0 ↔ Forall (λ r, order_id r = None) (rows df))
  ∧ (total_orders m = 0 → avg_order_value m = 0%Qc).
Proof.
  intros [_ ->]%calculate_metrics_Ok_inv. unfold metrics_of.
  cbn [total_orders avg_order_value]. unfold nunique, len.
  split; [|split].
  - pose proof (length_remove_dups (omap id (order_id <$> rows df))).
    pose proof (length_omap id (order_id <$> rows df)).
    rewrite length_fmap in *. lia.
  - rewrite <- Nat2Z.inj_0, Nat2Z.inj_iff, length_zero_iff_nil.
    rewrite Forall_forall. split.
    + intros Hnil r Hr%list_elem_of_In.
      destruct (order_id r) as [i|] eqn:Hi; [|done].
      assert (i ∈ remove_dups (omap id (order_id <$> rows df))) as Hin.
      { apply elem_of_remove_dups, list_elem_of_omap. exists (Some i).
        split; [|done]. apply list_elem_of_fmap. by exists r. }
      rewrite Hnil in Hin. by apply elem_of_nil in Hin.
    + intros Hnone.
      destruct (remove_dups _) as [|i l] eqn:Hd; [done|].
      assert (i ∈ remove_dups (omap id (order_id <$> rows df))) as Hin
        by (rewrite Hd; by left).
      apply elem_of_remove_dups, list_elem_of_omap in Hin
        as (o & (r & -> & Hr)%list_elem_of_fmap & Ho).
      apply list_elem_of_In in Hr. rewrite (Hnone r Hr) in Ho. done.
  - intros ->. cbn. apply round2_0.
Qed.

(** X19: the pizzas that [popular_pizzas] leaves out sold no more than
    any pizza it lists; with at most 10 pizza names in the frame it
    lists them all. *)
Theorem popular_pizzas_are_the_top df m :
  sort_contract →
  calculate_metrics df = Ok m →
  (∀ name e,
     Some name ∈ pizza_name <$> rows df →
     name ∉ pp_pizza_name <$> popular_pizzas m →
     e ∈ popular_pizzas m →
     (series_sum (quantity <$> rows_of_pizza df name) ≤ pp_quantity e)%Qc)
  ∧ ((length (remove_dups (omap pizza_name (rows df))) ≤ 10)%nat →
     ∀ name, Some name ∈ pizza_name <$> rows df →
             name ∈ pp_pizza_name <$> popular_pizzas m).
Proof.
  intros Hsort [_ ->]%calculate_metrics_Ok_inv. unfold metrics_of.
  cbn [popular_pizzas]. rewrite head_n_nonneg by done.
  change (Z.to_nat 10) with 10%nat.
  destruct (Hsort (pizza_table df)) as [Hperm Hsorted].
  assert (∀ name, Some name ∈ pizza_name <$> rows df →
            ∃ e, e ∈ sort_values (pizza_table df) ∧ pp_pizza_name e = name
                 ∧ pp_quantity e
                   = series_sum (quantity <$> rows_of_pizza df name))
    as Hentry.
  { intros name Hname.
    assert (name ∈ pp_pizza_name <$> pizza_table df) as Hin
      by (rewrite pizza_table_names; by apply elem_of_group_keys).
    apply list_elem_of_fmap in Hin as (e & -> & He).
    exists e. rewrite Hperm. split; [done|]. split; [done|].
    by apply pizza_table_entry. }
  split.
  - intros name e' Hname Hout He'.
    destruct (Hentry name Hname) as (e & He & <- & <-).
    rewrite <- (take_drop 10 (sort_values (pizza_table df))) in He, Hsorted.
    apply elem_of_app in He as [He|He].
    + destruct Hout. apply list_elem_of_fmap. by exists e.
    + by apply (StronglySorted_app_1_elem_of _ _ _ e' e) in Hsorted.
  - intros Hlen name Hname.
    destruct (Hentry name Hname) as (e & He & <- & _).
    rewrite take_ge; [apply list_elem_of_fmap; by exists e|].
    rewrite Hperm. unfold pizza_table.
    rewrite length_fmap, group_keys_Permutation.
    by rewrite omap_id_fmap.
Qed.

End Metrics.

(** ** Rounding to cents *)

Lemma this_Qcminus (x y : Qc) : (this (x - y)%Qc == this x - this y)%Q.
Proof.
  unfold Qcminus, Qcplus, Qcopp, Q2Qc. cbn [this].
  by rewrite !Qred_correct.
Qed.

Lemma this_Qcmult (x y : Qc) : (this (x * y)%Qc == this x * this y)%Q.
Proof. unfold Qcmult, Q2Qc. cbn [this]. apply Qred_correct. Qed.

(** [rint] is within one half of its argument. *)
Lemma rint_close (y : Qc) :
  (inject_Z (rint y) - this y <= 1 # 2)%Q
  ∧ (this y - inject_Z (rint y) <= 1 # 2)%Q.
Proof.
  unfold rint.
  pose proof (Qfloor_le y) as Hlo. pose proof (Qlt_floor y) as Hhi.
  set (f := Qfloor y) in *. rewrite inject_Z_plus in Hhi.
  change (inject_Z 1) with 1%Q in Hhi.
  assert (this (y - Qc_of_Z f)%Qc == this y - inject_Z f)%Q as E
    by (by rewrite this_Qcminus).
  assert (this (1 / 2)%Qc == 1 # 2)%Q as Eh by reflexivity.
  destruct (y - Qc_of_Z f ?= 1 / 2)%Qc eqn:Hcmp.
  - apply Qceq_alt in Hcmp. apply (f_equal this) in Hcmp.
    rewrite <- Hcmp in Eh. rewrite E in Eh.
    destruct (Z.even f); rewrite ?inject_Z_plus;
      change (inject_Z 1) with 1%Q; lra.
  - apply Qclt_alt in Hcmp. unfold Qclt in Hcmp. rewrite E, Eh in Hcmp. lra.
  - apply Qcgt_alt in Hcmp. unfold Qclt in Hcmp. rewrite E, Eh in Hcmp.
    rewrite inject_Z_plus. change (inject_Z 1) with 1%Q. lra.
Qed.

(** [rint] leaves an integer as it is. *)
Lemma rint_Qc_of_Z (z : Z) : rint (Qc_of_Z z) = z.
Proof.
  unfold rint.
  assert (Qfloor (Qc_of_Z z) = z) as -> by apply Qfloor_Z.
  assert ((Qc_of_Z z - Qc_of_Z z)%Qc = 0%Qc) as -> by ring.
  reflexivity.
Qed.

Lemma round2_scaled (x : Qc) :
  (round2 x * Qc_of_Z 100)%Qc = Qc_of_Z (rint (x * Qc_of_Z 100)).
Proof. unfold round2. field. by intros [=]. Qed.

(** [round2] moves its argument by at most half a cent. *)
Lemma round2_close (x : Qc) :
  (round2 x - x ≤ Q2Qc (1 # 200))%Qc ∧ (x - round2 x ≤ Q2Qc (1 # 200))%Qc.
Proof.
  destruct (rint_close (x * Qc_of_Z 100)) as [Hup Hdown].
  change (inject_Z (rint (x * Qc_of_Z 100)))
    with (this (Qc_of_Z (rint (x * Qc_of_Z 100)))) in Hup, Hdown.
  rewrite <- round2_scaled in Hup, Hdown.
  rewrite !this_Qcmult in Hup, Hdown.
  assert (this (Qc_of_Z 100) == 100)%Q as E by reflexivity.
  rewrite E in Hup, Hdown.
  unfold Qcle. rewrite !this_Qcminus.
  assert (this (Q2Qc (1 # 200)) == 1 # 200)%Q as -> by reflexivity.
  lra.
Qed.

(** [round2] leaves a whole number of cents as it is. *)
Lemma round2_cents (x : Qc) (cents : Z) :
  (x * Qc_of_Z 100)%Qc = Qc_of_Z cents → round2 x = x.
Proof.
  intros Hx. unfold round2. rewrite Hx, rint_Qc_of_Z, <- Hx. field.
  by intros [=].
Qed.

Section Rounding.

Context `{Pandas}.

(** X20: [total_revenue] and [avg_order_value] are whole numbers of
    cents; [total_revenue] is within half a cent of the revenue sum, and
    is that sum when the sum is a whole number of cents. *)
Theorem calculate_metrics_rounds_to_cents df m :
  calculate_metrics df = Ok m →
  (∃ cents, (total_revenue m * Qc_of_Z 100)%Qc = Qc_of_Z cents)
  ∧ (∃ cents, (avg_order_value m * Qc_of_Z 100)%Qc = Qc_of_Z cents)
  ∧ (total_revenue m - revenue_sum df ≤ Q2Qc (1 # 200))%Qc
  ∧ (revenue_sum df - total_revenue m ≤ Q2Qc (1 # 200))%Qc
  ∧ ∀ cents, (revenue_sum df * Qc_of_Z 100)%Qc = Qc_of_Z cents →
             total_revenue m = revenue_sum df.
Proof.
  intros [_ ->]%calculate_metrics_Ok_inv. unfold metrics_of.
  cbn [total_revenue avg_order_value].
  split; [eexists; apply round2_scaled|].
  split; [eexists; apply round2_scaled|].
  split; [apply round2_close|]. split; [apply round2_close|].
  intros cents. apply round2_cents.
Qed.

End Rounding.

(** ** The popular pizzas and the totals *)

Lemma Qc_sum_Permutation (l1 l2 : list Qc) :
  l1 ≡ₚ l2 → Qc_sum l1 = Qc_sum l2.
Proof.
  induction 1 as [|x l1 l2 _ IH|x y l|l1 l2 l3 _ IH1 _ IH2]; cbn.
  - done.
  - fold (Qc_sum l1) (Qc_sum l2). by rewrite IH.
  - fold (Qc_sum l). ring.
  - by rewrite IH1.
Qed.

(** The sums of the groups add up to the sum over the items with a key. *)
Lemma group_sum_total `{EqDecision K} {X} (key : X → option K)
  (val : X → option Qc) (leb : K → K → bool) (l : list X) :
  Qc_sum (group_sum (key <$> l) (val <$> l) <$> group_keys leb (key <$> l))
  = series_sum (val <$> filter (λ x, is_Some (key x)) l).
Proof.
  pose proof (groupby_sum_total leb (key <$> l) (val <$> l)) as Htotal.
  unfold groupby_sum in Htotal. rewrite <- list_fmap_compose in Htotal.
  etrans; [exact Htotal|].
  rewrite zip_with_fmap_l, zip_with_fmap_r, zip_with_diag.
  by rewrite filter_fmap, <- list_fmap_compose.
Qed.

Section Popular.

Context `{Pandas}.

(** X21: with at most 10 pizza names in the frame, the quantities of
    [popular_pizzas] add up to the quantity of the rows that have a name
    and the revenues to their revenue; when every row has a name these are
    the quantity sum and the revenue sum. *)
Theorem popular_pizzas_add_up df m :
  sort_contract →
  calculate_metrics df = Ok m →
  (length (remove_dups (omap pizza_name (rows df))) ≤ 10)%nat →
  Qc_sum (pp_quantity <$> popular_pizzas m)
  = series_sum (quantity <$> filter (λ r, is_Some (pizza_name r)) (rows df))
  ∧ Qc_sum (pp_revenue <$> popular_pizzas m)
    = keyed_revenue pizza_name (rows df)
  ∧ (Forall (λ r, is_Some (pizza_name r)) (rows df) →
     Qc_sum (pp_quantity <$> popular_pizzas m) = quantity_sum df
     ∧ Qc_sum (pp_revenue <$> popular_pizzas m) = revenue_sum df).
Proof.
  intros Hsort [_ ->]%calculate_metrics_Ok_inv Hlen. unfold metrics_of.
  cbn [popular_pizzas]. rewrite head_n_nonneg by done.
  change (Z.to_nat 10) with 10%nat.
  destruct (Hsort (pizza_table df)) as [Hperm _].
  rewrite take_ge.
  2:{ rewrite Hperm. unfold pizza_table.
      rewrite length_fmap, group_keys_Permutation. by rewrite omap_id_fmap. }
  rewrite !(Qc_sum_Permutation _ _ (fmap_Permutation _ _ _ Hperm)).
  unfold pizza_table. rewrite <- !list_fmap_compose.
  pose proof (group_sum_total pizza_name quantity String.leb (rows df))
    as Hq.
  pose proof (group_sum_total pizza_name revenue String.leb (rows df))
    as Hr.
  unfold keyed_revenue, quantity_sum, revenue_sum.
  split; [exact Hq|]. split; [exact Hr|].
  intros Hall. rewrite (filter_all _ (rows df) Hall) in Hq, Hr.
  split; [exact Hq|exact Hr].
Qed.

End Popular.

(** ** The remaining outcomes of an upload *)

Section Rows.

Context `{Pandas}.

(** A frame without rows has the all-zero record. *)
Lemma metrics_of_no_rows cols :
  sort_contract →
  metrics_of (Frame cols []) = MkMetrics 0 0 0 0 [] [] [] [] [] [].
Proof.
  intros Hsort. destruct (Hsort []) as [Hperm _].
  apply Permutation_nil_r in Hperm. unfold metrics_of.
  change (pizza_table (Frame cols [])) with (@nil popular_pizza).
  rewrite Hperm. unfold revenue_sum, quantity_sum, nunique. cbn.
  change (0 <? Z.of_nat 0) with false. cbn iota.
  by rewrite !round2_0.
Qed.

(** X22: an upload is answered with status 400 exactly when the file name
    does not end in [.csv]; the detail is then [Only CSV files are
    allowed] and the store is left as it was, whatever the content. *)
Theorem upload_file_bad_request_iff store file_filename content time :
  ((∃ detail, (upload_file store file_filename content time).1
              = Raise (HTTPException 400 detail))
   ↔ endswith file_filename ".csv" = false)
  ∧ (endswith file_filename ".csv" = false →
     upload_file store file_filename content time
     = (Raise (HTTPException 400 "Only CSV files are allowed"), store)).
Proof.
  rewrite upload_file_cases.
  destruct (endswith file_filename ".csv"); cbn [negb].
  2:{ split; [|done]. split; [done|]. intros _. by eexists. }
  split; [|done]. split; [|done]. intros [detail Hup].
  destruct (process_pizza_data content) as [out| |]; [|done..].
  destruct (calculate_metrics out); [|done..].
  cbn [fst] in Hup. by destruct (JSONResponse _).
Qed.

(** X23: the upload of a file read with the dtypes of the data model,
    with the nine columns, in which no line has a date and time that parse
    (a file without lines is one), has [record_count] 0 and the all-zero
    metrics in its response; when that response renders the upload
    succeeds, and it stores a frame without rows under the new id. *)
Theorem upload_file_without_parsed_rows store file_filename content time
  text df :
  sort_contract →
  endswith file_filename ".csv" = true →
  decode content = Ok text →
  read_csv text = Ok (Typed df) →
  required_columns ⊆ columns df →
  Forall (λ r, order_timestamp r = None) (rows df) →
  JSONResponse
    (MkUploadResponse "File processed successfully" (pretty (int time))
       0 (MkMetrics 0 0 0 0 [] [] [] [] [] [])) = Ok tt →
  upload_file store file_filename content time
  = (Ok (MkUploadResponse "File processed successfully" (pretty (int time))
           0 (MkMetrics 0 0 0 0 [] [] [] [] [] [])),
     <[pretty (int time) :=
         MkEntry file_filename (Frame (transformed_columns (columns df)) [])
           0 (MkMetrics 0 0 0 0 [] [] [] [] [] [])]> store).
Proof.
  intros Hsort Hcsv Hdec Hread Hreq Hnone Hjson.
  assert (transform_columns ⊆ columns df) as Htr
    by (by apply required_transform_columns).
  rewrite upload_file_cases, Hcsv. cbn [negb].
  rewrite (process_pizza_data_Ok _ text df) by done.
  assert (filter (λ r, is_Some (order_timestamp r)) (rows df) = []) as ->.
  { destruct (filter _ _) as [|r l] eqn:Hf; [done|].
    assert (r ∈ filter (λ r, is_Some (order_timestamp r)) (rows df))
      as [[ts Hts] Hr]%list_elem_of_filter by (rewrite Hf; by left).
    rewrite Forall_forall in Hnone.
    rewrite (Hnone r) in Hts by (by apply list_elem_of_In). done. }
  cbn [fmap list_fmap].
  rewrite calculate_metrics_Ok
    by (cbn [columns]; by apply metric_columns_transformed).
  rewrite metrics_of_no_rows by done.
  change (len (Frame _ [])) with 0. by rewrite Hjson.
Qed.

End Rows.

(** * Sample runs *)

Import Fixture.

Lemma decode_bytes_orders : decode (bytes orders_csv) = Ok orders_csv.
Proof. reflexivity. Qed.

Lemma transformed_has_metric_columns text :
  text ∈ [orders_csv; half_csv; veggie_first_csv; hawaiian_first_csv;
          anonymous_csv] →
  metric_columns ⊆ columns (transformed text).
Proof.
  intros Htext c Hc.
  repeat (apply elem_of_cons in Htext as [->|Htext]);
    [..|by apply elem_of_nil in Htext];
    vm_compute; unfold metric_columns in Hc;
    repeat (apply elem_of_cons in Hc as [->|Hc]; [elem_of_items|]);
    by apply elem_of_nil in Hc.
Qed.

(** The order lines: both good lines are kept, the line with time
    [25:99:99] is dropped, and nothing is raised. *)
Lemma process_pizza_data_keeps_parsed_rows_sample :
  ∃ out, @process_pizza_data pandas (bytes orders_csv) = Ok out
    ∧ order_id <$> rows out = [Some 1; Some 2].
Proof.
  destruct (process_pizza_data_keeps_parsed_rows (H := pandas)
              (bytes orders_csv) orders_csv orders_frame)
    as (out & Hout & Hrec & _); [reflexivity..| |].
  { intros c Hc. unfold transform_columns in Hc.
    repeat (apply elem_of_cons in Hc as [->|Hc]; [elem_of_items|]).
    by apply elem_of_nil in Hc. }
  exists out. split; [done|].
  apply (f_equal (fmap (λ rec, rec.1.1.1.1.1.1))) in Hrec.
  rewrite <- !list_fmap_compose in Hrec. exact Hrec.
Defined.

Lemma transform_columns_orders : transform_columns ⊆ columns orders_frame.
Proof.
  intros c Hc. unfold transform_columns in Hc.
  repeat (apply elem_of_cons in Hc as [->|Hc]; [elem_of_items|]).
  by apply elem_of_nil in Hc.
Qed.

(** The scenario of the order lines: quantity 2, unit price 5 and no total
    price give total price 5 and revenue 10 on both kept rows. *)
Lemma process_pizza_data_fills_then_multiplies_sample :
  ∃ out, @process_pizza_data pandas (bytes orders_csv) = Ok out
    ∧ Forall2
        (λ r' r,
           quantity r' = Some (default 1%Qc (quantity r))
           ∧ total_price r'
             = (if total_price r is Some _ then total_price r
                else unit_price r)
           ∧ revenue r'
             = (q ← quantity r'; p ← total_price r'; Some (q * p)%Qc))
        (rows out)
        (filter (λ r, is_Some (order_timestamp (H := pandas) r))
           (rows orders_frame)).
Proof.
  destruct (process_pizza_data_fills_then_multiplies (H := pandas)
              (bytes orders_csv) orders_csv (Typed orders_frame))
    as [Hreturns Hrows];
    [reflexivity|reflexivity|exact transform_columns_orders|].
  destruct (Hreturns eq_refl) as [out Hout].
  exists out. split; [done|]. by apply Hrows.
Defined.

Example scenario_missing_total_price :
  (λ r, (quantity r, total_price r, revenue r)) <$> rows (transformed orders_csv)
  = [(num 2, num 5, Some (Qc_of_Z 2 * Qc_of_Z 5)%Qc);
     (num 2, num 5, Some (Qc_of_Z 2 * Qc_of_Z 5)%Qc)]
  ∧ (Qc_of_Z 2 * Qc_of_Z 5 = Qc_of_Z 10)%Qc.
Proof. split; [reflexivity|by apply Qc_is_canon]. Qed.


(** The line whose date is written [20230101] is a line of a valid file:
    the bytes decode, the reader takes the text, and the frame has the
    nine columns and a date and a time on its row.  The date does not
    parse under the format, and the row is not dropped:
    [process_pizza_data] raises, the sum [order_date + ' '] having a
    column of numbers on its left. *)
Lemma process_pizza_data_raises_on_digit_dates :
  (∃ csv,
     (decode (bytes digits_csv) ≫= read_csv (Pandas := pandas)) = Ok csv
     ∧ required_columns ⊆ columns (frame csv)
     ∧ (λ r, (order_date r, order_time r)) <$> rows (frame csv)
       = [(Some "20230101", Some "12:00:00")]
     ∧ Forall (λ r, order_timestamp (H := pandas) r = None)
         (rows (frame csv)))
  ∧ @process_pizza_data pandas (bytes digits_csv)
    = Raise (HTTPException 400 "Error processing file: number + str")
  ∧ ¬ ∃ out, @process_pizza_data pandas (bytes digits_csv) = Ok out.
Proof.
  split; [|split; [reflexivity|by intros [out Hout]]].
  eexists. split; [reflexivity|]. split; [|split; [reflexivity|]].
  - intros c Hc. unfold required_columns in Hc.
    repeat (apply elem_of_cons in Hc as [->|Hc]; [elem_of_items|]).
    by apply elem_of_nil in Hc.
  - by repeat constructor.
Qed.

(** The line whose quantity and total price are words: the product of
    line 48 meets two texts, and [process_pizza_data] raises. *)
Example process_pizza_data_raises_on_words :
  @process_pizza_data pandas (bytes words_csv)
  = Raise (HTTPException 400 "Error processing file: str * str")
  ∧ (@upload_file pandas ∅ "words.csv" (bytes words_csv) 0%Qc)
    = (Raise (HTTPException 500 "400: Error processing file: str * str"), ∅).
Proof. split; reflexivity. Qed.

(** The order lines uploaded where the response does not render: the
    answer has status 500, and the entry is in the store. *)
Example upload_file_unrendered :
  (@upload_file pandas_unrendered ∅ "orders.csv" (bytes orders_csv)
     (Qc_of_Z 1700000000)).1
  = Raise (HTTPException 500
             "Out of range float values are not JSON compliant")
  ∧ ∃ entry,
      (@upload_file pandas_unrendered ∅ "orders.csv" (bytes orders_csv)
         (Qc_of_Z 1700000000)).2 !! "1700000000" = Some entry
      ∧ filename entry = "orders.csv" ∧ record_count entry = 2.
Proof. split; [reflexivity|]. eexists. split; [reflexivity|done]. Qed.

(** The text of a timestamp. *)
Example strftime_sample :
  Timestamp.strftime (Timestamp.mk 2023 1 1 12 0 0) = "2023-01-01 12:00:00"
  ∧ Timestamp.strftime (Timestamp.mk 999 12 31 1 0 0) = "999-12-31 01:00:00".
Proof. split; reflexivity. Qed.

(** The upload of that file is answered with status 500, and so is the
    upload of bytes that are not UTF-8. *)
Example upload_file_answers_500 :
  (@upload_file pandas ∅ "orders.csv" (bytes no_order_id_csv) 0%Qc).1
  = Raise (HTTPException 500 "'order_id'")
  ∧ (@upload_file pandas ∅ "orders.csv" [Init.Byte.xff] 0%Qc).1
    = Raise (HTTPException 500
               "400: Error processing file: 'utf-8' codec can't decode the bytes").
Proof. split; reflexivity. Qed.

(** The order lines, aggregated: two orders, revenue 20, average 10. *)
Lemma avg_order_value_rounded_quotient_sample :
  ∃ m, @calculate_metrics pandas (transformed orders_csv) = Ok m
    ∧ total_orders m = 2
    ∧ (total_revenue m == 20)%Q
    ∧ (avg_order_value m == 10)%Q.
Proof.
  destruct (avg_order_value_rounded_quotient (H := pandas)
              (transformed orders_csv) fixture_sort_contract)
    as (m & Hm & Hn & Hrev & Havg & _).
  { apply transformed_has_metric_columns. elem_of_items. }
  exists m. split; [done|]. split; [by rewrite Hn|].
  split; [by rewrite Hrev|].
  rewrite Havg by (by rewrite Hn). by rewrite Hn.
Defined.

(** The order lines: two pizzas of quantity 2 each; the tie comes out in
    the order of the names. *)
Lemma popular_pizzas_top_ten_descending_sample :
  ∃ m, @calculate_metrics pandas (transformed orders_csv) = Ok m
    ∧ pp_pizza_name <$> popular_pizzas m = ["Hawaiian"; "Margherita"]
    ∧ StronglySorted descending (popular_pizzas m)
    ∧ (length (popular_pizzas m) ≤ 10)%nat.
Proof.
  destruct (popular_pizzas_top_ten_descending (H := pandas)
              (transformed orders_csv) fixture_sort_contract)
    as (m & Hm & Hpop & Hlen & Hsorted & _).
  { apply transformed_has_metric_columns. elem_of_items. }
  exists m. split; [done|].
  split; [rewrite Hpop; vm_compute; reflexivity|].
  split; [exact Hsorted|exact Hlen].
Defined.

(** Two files with the same two lines in either order have the same
    grouped table, so whatever [sort_values] does with the tie, the answer
    cannot follow the order of first encounter on both. *)
Lemma popular_pizzas_ties_not_by_first_encounter :
  ¬ ∃ (P : Pandas) m1 m2,
      @calculate_metrics P (transformed veggie_first_csv) = Ok m1
      ∧ @calculate_metrics P (transformed hawaiian_first_csv) = Ok m2
      ∧ popular_pizzas m1
        = popular_pizzas_by_first_encounter (transformed veggie_first_csv)
      ∧ popular_pizzas m2
        = popular_pizzas_by_first_encounter (transformed hawaiian_first_csv).
Proof.
  intros (P & m1 & m2 & H1 & H2 & Hp1 & Hp2).
  rewrite calculate_metrics_Ok in H1
    by (apply transformed_has_metric_columns; elem_of_items).
  rewrite calculate_metrics_Ok in H2
    by (apply transformed_has_metric_columns; elem_of_items).
  injection H1 as <-. injection H2 as <-.
  unfold metrics_of in Hp1, Hp2. cbn [popular_pizzas] in Hp1, Hp2.
  assert (pizza_table (transformed hawaiian_first_csv)
          = pizza_table (transformed veggie_first_csv)) as Htable
    by (vm_compute; reflexivity).
  rewrite Htable, Hp1 in Hp2.
  apply (f_equal (fmap pp_pizza_name)) in Hp2. vm_compute in Hp2.
  discriminate Hp2.
Qed.

(** With the stable sort of the concrete instance, the file that lists
    Veggie first is answered with Hawaiian first. *)
Example popular_pizzas_tie_in_name_order :
  ∃ m, @calculate_metrics pandas (transformed veggie_first_csv) = Ok m
    ∧ pp_pizza_name <$> popular_pizzas m = ["Hawaiian"; "Veggie"]
    ∧ pp_pizza_name
        <$> popular_pizzas_by_first_encounter (transformed veggie_first_csv)
      = ["Veggie"; "Hawaiian"].
Proof. eexists. split; [reflexivity|]. split; reflexivity. Qed.

Lemma transformed_rows_have_timestamp text :
  Forall (λ r, is_Some (order_datetime r)) (rows (transformed text)).
Proof.
  unfold transformed.
  destruct (@process_pizza_data pandas (bytes text)) as [out| |] eqn:Hout;
    [|constructor..].
  destruct (process_pizza_data_Ok_inv (H := pandas) _ _ Hout)
    as (? & df & _ & _ & _ & ->).
  apply transformed_frame_timestamps.
Qed.

(** The order lines: one day with revenue 20, which is the total. *)
Lemma daily_sales_add_up_to_total_revenue_sample :
  ∃ m, @calculate_metrics pandas (transformed orders_csv) = Ok m
    ∧ ((λ kv : string * Qc, (kv.1, this kv.2)) <$> daily_sales m
       = [("2023-01-01", 20%Q)])
    ∧ round2 (Qc_sum (snd <$> daily_sales m)) = total_revenue m.
Proof.
  destruct (daily_sales_add_up_to_total_revenue (H := pandas)
              (transformed orders_csv))
    as (m & Hm & Hsum & Hround).
  { apply transformed_has_metric_columns. elem_of_items. }
  { apply transformed_rows_have_timestamp. }
  exists m. split; [done|]. split; [|done].
  vm_compute in Hm. injection Hm as <-. reflexivity.
Defined.

(** The line with quantity 1.5: the record says 1 item sold. *)
Lemma total_items_sold_truncated_sum_sample :
  ∃ m, @calculate_metrics pandas (transformed half_csv) = Ok m
    ∧ total_items_sold m = Qfloor (quantity_sum (transformed half_csv))
    ∧ total_items_sold m = 1.
Proof.
  destruct (total_items_sold_truncated_sum (H := pandas)
              (transformed half_csv))
    as (m & Hm & Hint & Hfloor & _).
  { apply transformed_has_metric_columns. elem_of_items. }
  exists m. split; [done|]. split; [by apply Hfloor|by rewrite Hint].
Defined.

(** On that line the sum of the quantities is 1.5, also when rounded to 2
    places, and [total_items_sold] is 1. *)
Lemma total_items_sold_not_rounded_sum :
  ∃ m, @calculate_metrics pandas (transformed half_csv) = Ok m
    ∧ (round2 (quantity_sum (transformed half_csv)) == 3 # 2)%Q
    ∧ total_items_sold m = 1
    ∧ Qc_of_Z (total_items_sold m)
      ≠ round2 (quantity_sum (transformed half_csv)).
Proof.
  exists (metrics_of (H := pandas) (transformed half_csv)).
  split; [|split; [reflexivity|split; [reflexivity|]]].
  - apply calculate_metrics_Ok, transformed_has_metric_columns.
    elem_of_items.
  - intros Heq. apply (f_equal this) in Heq. vm_compute in Heq.
    discriminate Heq.
Qed.

(** The order lines, aggregated twice through one reference: the same
    record both times, and the frame behind the reference as it was. *)
Lemma calculate_metrics_twice_identical_sample :
  ∃ m h',
    Objects.aggregate_twice (H := pandas) 0
      [Objects.Lines (transformed orders_csv) None]
    = (Ok (m, m), h')
    ∧ @calculate_metrics pandas (transformed orders_csv) = Ok m
    ∧ h' !! 0%nat = Some (Objects.Lines (transformed orders_csv) None).
Proof.
  destruct (calculate_metrics_twice_identical (H := pandas)
              [Objects.Lines (transformed orders_csv) None] 0
              (transformed orders_csv))
    as (m & h1 & h2 & _ & _ & Htwice & Hm & _ & Hkept).
  { reflexivity. }
  { apply transformed_has_metric_columns. elem_of_items. }
  exists m, h2. split; [done|]. split; [done|].
  by apply (Hkept 0%nat).
Defined.

(** What the copy is for: were the column of text written to the frame
    itself, a second call would find no timestamps behind [.dt]. *)
Example calculate_metrics_on_text_raises :
  (Objects.calculate_metrics (H := pandas) 0
     [Objects.Lines (transformed orders_csv)
        (Some [Some "2023-01-01 12:00:00"; Some "2023-01-01 12:00:00"])]).1
  = Raise (AttributeError "Can only use .dt accessor with datetimelike values").
Proof. reflexivity. Qed.

(** That file: one order, with or without the line that has no id; the
    line brings the items sold from 2 to 4. *)
Lemma rows_without_order_id_only_add_to_sums_sample :
  ∃ m m',
    @calculate_metrics pandas (transformed anonymous_csv) = Ok m
    ∧ @calculate_metrics pandas
        (Frame (columns (transformed anonymous_csv))
           (take 1 (rows (transformed anonymous_csv))
            ++ drop 2 (rows (transformed anonymous_csv)))) = Ok m'
    ∧ total_orders m = 1 ∧ total_orders m' = 1
    ∧ total_items_sold m = 4 ∧ total_items_sold m' = 2.
Proof.
  destruct (rows_without_order_id_only_add_to_sums (H := pandas)
              (transformed anonymous_csv) anonymous_row
              (take 1 (rows (transformed anonymous_csv)))
              (drop 2 (rows (transformed anonymous_csv))))
    as (m & m' & Hm & Hm' & Heq & Hn & _ & Hitems).
  { apply transformed_has_metric_columns. elem_of_items. }
  { reflexivity. }
  { reflexivity. }
  exists m, m'. split; [done|]. split; [done|].
  split; [by rewrite Hn|]. split; [by rewrite <- Heq, Hn|].
  split; [by rewrite Hitems|].
  vm_compute in Hm'. by injection Hm' as <-.
Defined.

(** After one upload of the order lines, [limit=-1] is answered with the
    first of the two stored rows. *)
Lemma get_raw_data_negative_limit_sample :
  ∃ entry, uploaded.2 !! "1700000000" = Some entry
    ∧ record_count entry = 2
    ∧ get_raw_data uploaded.2 "1700000000" (-1)
      = Ok (serializable_row (dataframe entry)
              <$> take 1 (rows (dataframe entry))).
Proof.
  destruct (uploaded.2 !! "1700000000") as [entry|] eqn:Hentry;
    [|by vm_compute in Hentry].
  assert (record_count entry = 2) as Hcount
    by (vm_compute in Hentry; by injection Hentry as <-).
  exists entry. split; [done|]. split; [done|].
  destruct (get_raw_data_negative_limit (H := pandas) uploaded.2
              "1700000000" entry (-1)) as [Hget _].
  { apply (reachable_upload (H := pandas)), reachable_empty. }
  { exact Hentry. }
  { lia. }
  rewrite Hget, Hcount. reflexivity.
Defined.

(** One byte that is not UTF-8, uploaded under a [.csv] name. *)
Lemma upload_file_transform_error_sample :
  @upload_file pandas ∅ "orders.csv" [Init.Byte.xff] 0%Qc
  = (Raise (HTTPException 500
              "400: Error processing file: 'utf-8' codec can't decode the bytes"),
     ∅).
Proof.
  apply (upload_file_transform_error (H := pandas) ∅ "orders.csv"
           [Init.Byte.xff] 0%Qc UnicodeDecodeError); reflexivity.
Defined.

(** The upload of the order lines, then its metrics by id. *)
Lemma upload_then_get_metrics_sample :
  ∃ response,
    uploaded.1 = Ok response
    ∧ file_id response = "1700000000"
    ∧ get_metrics uploaded.2 "1700000000" = Ok (response_metrics response).
Proof.
  destruct uploaded.1 as [response| |] eqn:Hresponse;
    [|by vm_compute in Hresponse..].
  assert (file_id response = "1700000000") as Hid
    by (vm_compute in Hresponse; by injection Hresponse as <-).
  exists response. split; [done|]. split; [done|]. rewrite <- Hid.
  apply (upload_then_get_metrics (H := pandas) ∅ "orders.csv"
           (bytes orders_csv) (Qc_of_Z 1700000000)).
  rewrite <- Hresponse. apply surjective_pairing.
Defined.



(** The order lines, then the line with quantity 1.5 half a second later:
    both get the id [1700000000] and the store keeps one entry. *)
Lemma upload_file_same_second_sample :
  ∃ r1 r2 store2,
    uploaded.1 = Ok r1
    ∧ @upload_file pandas uploaded.2 "half.csv" (bytes half_csv)
        (Q2Qc (3400000001 # 2)) = (Ok r2, store2)
    ∧ file_id r1 = "1700000000" ∧ file_id r2 = "1700000000"
    ∧ dom store2 = dom uploaded.2.
Proof.
  destruct uploaded.1 as [r1| |] eqn:H1; [|by vm_compute in H1..].
  destruct (@upload_file pandas uploaded.2 "half.csv" (bytes half_csv)
              (Q2Qc (3400000001 # 2))) as [[r2| |] store2] eqn:H2;
    [|by vm_compute in H2..].
  exists r1, r2, store2. split; [done|]. split; [done|].
  destruct (upload_file_same_second (H := pandas) ∅ "orders.csv"
              (bytes orders_csv) (Qc_of_Z 1700000000) r1 uploaded.2
              "half.csv" (bytes half_csv) (Q2Qc (3400000001 # 2)) r2 store2)
    as (Hid1 & Hid2 & _ & Hsame & _).
  { rewrite <- H1. apply surjective_pairing. }
  { exact H2. }
  destruct Hsame as [_ Hdom]; [reflexivity|].
  split; [by rewrite Hid1|]. split; [by rewrite Hid2|done].
Defined.

(** The entry stored for the order lines. *)
Lemma stored_entries_are_transformed_sample :
  ∃ entry, uploaded.2 !! "1700000000" = Some entry
    ∧ record_count entry = len (dataframe entry)
    ∧ @calculate_metrics pandas (dataframe entry) = Ok (metrics entry).
Proof.
  destruct (uploaded.2 !! "1700000000") as [entry|] eqn:Hentry;
    [|by vm_compute in Hentry].
  exists entry. split; [done|].
  apply (stored_entries_are_transformed (H := pandas) uploaded.2
           "1700000000" entry); [|exact Hentry].
  apply (reachable_upload (H := pandas)), reachable_empty.
Defined.

(** After the upload of the order lines, [limit=1] is answered with the
    first of the two rows. *)
Lemma get_raw_data_nonnegative_limit_sample :
  ∃ entry all, uploaded.2 !! "1700000000" = Some entry
    ∧ get_raw_data uploaded.2 "1700000000" 2 = Ok all
    ∧ get_raw_data uploaded.2 "1700000000" 1 = Ok (take 1 all)
    ∧ length (take 1 all) = 1%nat.
Proof.
  destruct (uploaded.2 !! "1700000000") as [entry|] eqn:Hentry;
    [|by vm_compute in Hentry].
  assert (record_count entry = 2) as Hcount
    by (vm_compute in Hentry; by injection Hentry as <-).
  destruct (get_raw_data_nonnegative_limit (H := pandas) uploaded.2
              "1700000000" entry 1) as (all & Hall & _ & Hget & Hlen).
  { apply (reachable_upload (H := pandas)), reachable_empty. }
  { exact Hentry. }
  { lia. }
  rewrite Hcount in Hall, Hlen.
  change (Z.to_nat 1) with 1%nat in Hget, Hlen.
  exists entry, all. split; [done|]. split; [done|]. split; [done|]. lia.
Defined.

(** After the upload of the order lines, the first row as [limit=1]
    returns it: 14 items that a JSON encoder takes, the timestamp as
    [2023-01-01 12:00:00]. *)
Lemma get_raw_data_json_safe_sample :
  ∃ answer,
    get_raw_data uploaded.2 "1700000000" 1 = Ok answer
    ∧ Forall (λ line, Forall (λ kv, json_safe kv.2 = true) line) answer
    ∧ (λ line, (length line, line !! 9%nat)) <$> answer
      = [(14%nat, Some ("order_datetime", VStr "2023-01-01 12:00:00"))].
Proof.
  destruct (get_raw_data uploaded.2 "1700000000" 1) as [answer| |] eqn:Hget;
    [|by vm_compute in Hget..].
  exists answer. split; [done|].
  destruct (get_raw_data_json_safe (H := pandas) uploaded.2 "1700000000" 1
              answer) as (entry & _ & Hrows).
  { apply (reachable_upload (H := pandas)), reachable_empty. }
  { exact Hget. }
  split.
  - eapply Forall2_Forall_l; [exact Hrows|]. apply Forall_true.
    by intros r line (_ & Hsafe & _).
  - vm_compute in Hget. by injection Hget as <-.
Defined.

(** The preview stored for the order lines is the answer to [limit=10]. *)
Lemma data_preview_is_raw_data_head_sample :
  ∃ entry, uploaded.2 !! "1700000000" = Some entry
    ∧ get_raw_data uploaded.2 "1700000000" 10
      = Ok (data_preview (metrics entry)).
Proof.
  destruct (uploaded.2 !! "1700000000") as [entry|] eqn:Hentry;
    [|by vm_compute in Hentry].
  exists entry. split; [done|].
  apply (data_preview_is_raw_data_head (H := pandas) uploaded.2
           "1700000000" entry); [|exact Hentry].
  apply (reachable_upload (H := pandas)), reachable_empty.
Defined.

(** The listing after the upload of the order lines. *)
Lemma get_uploaded_files_item_sample :
  ∃ info, get_uploaded_files uploaded.2 !! "1700000000" = Some info
    ∧ upload_time info = "1700000000"
    ∧ info_filename info = "orders.csv"
    ∧ info_record_count info = 2.
Proof.
  destruct (get_uploaded_files uploaded.2 !! "1700000000") as [info|]
    eqn:Hinfo; [|by vm_compute in Hinfo].
  exists info. split; [done|].
  destruct (get_uploaded_files_item (H := pandas) uploaded.2 "1700000000"
              info) as [Htime _].
  { apply (reachable_upload (H := pandas)), reachable_empty. }
  { exact Hinfo. }
  split; [done|]. vm_compute in Hinfo. by injection Hinfo as <-.
Defined.

(** The upload of the order lines, then the listing. *)
Lemma upload_then_get_uploaded_files_sample :
  ∃ response,
    uploaded.1 = Ok response
    ∧ get_uploaded_files uploaded.2 !! file_id response
      = Some (MkFileInfo "orders.csv" (response_record_count response)
                (file_id response)).
Proof.
  destruct uploaded.1 as [response| |] eqn:Hresponse;
    [|by vm_compute in Hresponse..].
  exists response. split; [done|].
  apply (upload_then_get_uploaded_files (H := pandas) ∅ "orders.csv"
           (bytes orders_csv) (Qc_of_Z 1700000000)).
  rewrite <- Hresponse. apply surjective_pairing.
Defined.

(** The order lines: both kept rows are of noon, a Sunday in January. *)
Lemma process_pizza_data_derives_from_timestamp_sample :
  ∃ out, @process_pizza_data pandas (bytes orders_csv) = Ok out
    ∧ Forall (λ r, is_Some (order_datetime r)) (rows out)
    ∧ (λ r, (month r, day_of_week r, hour r)) <$> rows out
      = [(Some 1, Some "Sunday", Some 12); (Some 1, Some "Sunday", Some 12)].
Proof.
  destruct (@process_pizza_data pandas (bytes orders_csv)) as [out| |] eqn:Hout;
    [|by vm_compute in Hout..].
  exists out. split; [done|].
  destruct (process_pizza_data_derives_from_timestamp (H := pandas)
              (bytes orders_csv) out Hout) as (Hrows & _).
  split.
  - eapply List.Forall_impl; [|exact Hrows].
    intros r (d & t & ts & _ & _ & _ & -> & _). by eexists.
  - vm_compute in Hout. by injection Hout as <-.
Defined.

(** The order lines: two of the three rows are kept. *)
Lemma process_pizza_data_row_count_sample :
  ∃ out, @process_pizza_data pandas (bytes orders_csv) = Ok out
    ∧ len out ≤ 3.
Proof.
  destruct (@process_pizza_data pandas (bytes orders_csv)) as [out| |] eqn:Hout;
    [|by vm_compute in Hout..].
  exists out. split; [done|].
  apply (process_pizza_data_row_count (H := pandas) (bytes orders_csv)
           orders_csv (Typed orders_frame) out);
    [reflexivity|reflexivity|exact Hout].
Defined.

(** The order lines: 2 * 5 + 2 * 5. *)
Lemma process_pizza_data_revenue_sum_sample :
  ∃ out, @process_pizza_data pandas (bytes orders_csv) = Ok out
    ∧ (revenue_sum out == 20)%Q.
Proof.
  destruct (@process_pizza_data pandas (bytes orders_csv)) as [out| |] eqn:Hout;
    [|by vm_compute in Hout..].
  exists out. split; [done|].
  rewrite (process_pizza_data_revenue_sum (H := pandas) (bytes orders_csv)
             orders_csv (Typed orders_frame) out);
    [|reflexivity|reflexivity|exact Hout].
  reflexivity.
Defined.

(** The order lines, aggregated: one category, two sizes in the order
    [L], [M]. *)
Lemma calculate_metrics_breakdowns_sample :
  ∃ m, @calculate_metrics pandas (transformed orders_csv) = Ok m
    ∧ revenue_by pizza_category String.leb (rows (transformed orders_csv))
        (category_sales m)
    ∧ (size_sales m).*1 = ["L"; "M"].
Proof.
  destruct (@calculate_metrics pandas (transformed orders_csv)) as [m| |]
    eqn:Hm; [|by vm_compute in Hm..].
  exists m. split; [done|].
  destruct (calculate_metrics_breakdowns (H := pandas)
              (transformed orders_csv) m Hm) as (Hcat & _).
  split; [done|]. vm_compute in Hm. by injection Hm as <-.
Defined.

(** The order lines, aggregated: the lines of each breakdown add up to the
    revenue sum. *)
Lemma calculate_metrics_breakdown_totals_sample :
  ∃ m, @calculate_metrics pandas (transformed orders_csv) = Ok m
    ∧ Qc_sum (category_sales m).*2
      = keyed_revenue pizza_category (rows (transformed orders_csv)).
Proof.
  destruct (@calculate_metrics pandas (transformed orders_csv)) as [m| |]
    eqn:Hm; [|by vm_compute in Hm..].
  exists m. split; [done|].
  by destruct (calculate_metrics_breakdown_totals (H := pandas)
                 (transformed orders_csv) m Hm) as (Hcat & _).
Defined.

(** The order lines, aggregated: between 0 and 2 orders. *)
Lemma total_orders_bounds_sample :
  ∃ m, @calculate_metrics pandas (transformed orders_csv) = Ok m
    ∧ 0 ≤ total_orders m ≤ len (transformed orders_csv).
Proof.
  destruct (@calculate_metrics pandas (transformed orders_csv)) as [m| |]
    eqn:Hm; [|by vm_compute in Hm..].
  exists m. split; [done|].
  by destruct (total_orders_bounds (H := pandas)
                 (transformed orders_csv) m Hm) as (Hbounds & _).
Defined.

(** The order lines have two pizza names: both are listed. *)
Lemma popular_pizzas_are_the_top_sample :
  ∃ m, @calculate_metrics pandas (transformed orders_csv) = Ok m
    ∧ "Margherita" ∈ pp_pizza_name <$> popular_pizzas m.
Proof.
  destruct (@calculate_metrics pandas (transformed orders_csv)) as [m| |]
    eqn:Hm; [|by vm_compute in Hm..].
  exists m. split; [done|].
  destruct (popular_pizzas_are_the_top (H := pandas)
              (transformed orders_csv) m fixture_sort_contract Hm)
    as (_ & Hall).
  apply Hall; [vm_compute; lia|]. vm_compute. elem_of_items.
Defined.

(** The order lines, aggregated: 2000 cents. *)
Lemma calculate_metrics_rounds_to_cents_sample :
  ∃ m, @calculate_metrics pandas (transformed orders_csv) = Ok m
    ∧ ∃ cents, (total_revenue m * Qc_of_Z 100)%Qc = Qc_of_Z cents.
Proof.
  destruct (@calculate_metrics pandas (transformed orders_csv)) as [m| |]
    eqn:Hm; [|by vm_compute in Hm..].
  exists m. split; [done|].
  by destruct (calculate_metrics_rounds_to_cents (H := pandas)
                 (transformed orders_csv) m Hm) as (Hcents & _).
Defined.

(** The order lines have two pizza names and a name on every row. *)
Lemma popular_pizzas_add_up_sample :
  ∃ m, @calculate_metrics pandas (transformed orders_csv) = Ok m
    ∧ Qc_sum (pp_quantity <$> popular_pizzas m)
      = quantity_sum (transformed orders_csv)
    ∧ Qc_sum (pp_revenue <$> popular_pizzas m)
      = revenue_sum (transformed orders_csv).
Proof.
  destruct (@calculate_metrics pandas (transformed orders_csv)) as [m| |]
    eqn:Hm; [|by vm_compute in Hm..].
  exists m. split; [done|].
  destruct (popular_pizzas_add_up (H := pandas) (transformed orders_csv) m
              fixture_sort_contract Hm) as (_ & _ & Hall).
  { vm_compute. lia. }
  apply Hall. vm_compute. repeat constructor; by eexists.
Defined.

(** The header alone, uploaded. *)
Lemma upload_file_without_parsed_rows_sample :
  ∃ store,
    @upload_file pandas_header ∅ "empty.csv" (bytes header_csv)
      (Qc_of_Z 1700000000)
    = (Ok (MkUploadResponse "File processed successfully" "1700000000" 0
             (MkMetrics 0 0 0 0 [] [] [] [] [] [])), store)
    ∧ get_raw_data store "1700000000" 50 = Ok [].
Proof.
  eexists. split.
  - apply (upload_file_without_parsed_rows (H := pandas_header) ∅
             "empty.csv" (bytes header_csv) (Qc_of_Z 1700000000) header_csv
             (Frame csv_columns [])).
    + exact fixture_sort_contract.
    + reflexivity.
    + reflexivity.
    + reflexivity.
    + intros c Hc. unfold required_columns in Hc.
      repeat (apply elem_of_cons in Hc as [->|Hc]; [elem_of_items|]).
      by apply elem_of_nil in Hc.
    + constructor.
    + reflexivity.
  - reflexivity.
Defined.
